(** * gslab_make_dev.private.programdirective

    A shallow embedding of the directive layer of gslab_make_dev
    ([Directive], [ProgramDirective], [LyxDirective]) together with the
    properties its specification states about command execution, logging,
    relocation of program output and construction-time validation.

    Python methods that touch the file system, the process table, the
    terminal or the module-level flag [metadata.makelog_started] are
    functions in a state-and-exception monad over [World].  The object
    [self] is passed explicitly and returned when a method assigns to one of
    its attributes. *)

From Stdlib Require Import String Ascii ZArith List Bool.
From stdpp Require Import base option gmap strings list.

Local Open Scope string_scope.

(** ** Text *)

Definition newline : string := String "010"%char EmptyString.
Definition dquote : string := String "034"%char EmptyString.

(** A format string with exactly one [%s] directive, kept as the text before
    and after the directive.  [fmt t s] is Python's [t % s]. *)
Record Template := { before : string; after : string }.

Definition fmt (t : Template) (s : string) : string :=
  before t +:+ s +:+ after t.

(** Code points that [str.isspace] accepts, among the ASCII ones: tab, line
    feed, vertical tab, form feed, carriage return, the four separators
    0x1c-0x1f and space.  Commands are modelled as ASCII text. *)
Definition isspace (c : ascii) : bool :=
  let n := nat_of_ascii c in
  ((9 <=? n)%nat && (n <=? 13)%nat) || ((28 <=? n)%nat && (n <=? 32)%nat).

(** [str.split()] without a separator: runs of white space separate the
    tokens, and no token is empty.  [tok] is the token being read, if any. *)
Fixpoint split_from (tok : option string) (s : string) : list string :=
  match s with
  | EmptyString => match tok with Some t => [t] | None => [] end
  | String c s' =>
      if isspace c then
        match tok with
        | Some t => t :: split_from None s'
        | None => split_from None s'
        end
      else split_from (Some (default "" tok +:+ String c "")) s'
  end.

Definition split (s : string) : list string := split_from None s.

(** [sep.join(l)]. *)
Definition join (sep : string) (l : list string) : string := String.concat sep l.

(** Truth value of a Python string: non-empty. *)
Definition truthy (s : string) : bool := negb (String.eqb s "").

(** [needle in hay] for strings. *)
Fixpoint is_infix (needle hay : string) : bool :=
  String.prefix needle hay
  || match hay with
     | EmptyString => false
     | String _ hay' => is_infix needle hay'
     end.

Definition embeds (hay needle : string) : Prop :=
  exists pre post, hay = pre +:+ needle +:+ post.

(** ** Exceptions, the world and the monad *)

Inductive exn :=
| CritError (msg : string)
| KeyError (key : string)
| AttributeError (attr : string)
| IOError (path : string)
| OSError (what : string)
| ShutilError (src dst : string)
| TypeError (msg : string).

Inductive result (A : Type) :=
| Ok (a : A)
| Raise (e : exn).
Arguments Ok {A} a.
Arguments Raise {A} e.

(** What [subprocess.Popen] is handed: a sequence of arguments or one string. *)
Inductive popen_args :=
| ArgList (argv : list string)
| ArgStr (cmdline : string).

(** The part of the machine the module reads and writes.  Files are regular
    files named by the path string handed to the operating system; two path
    strings name the same file exactly when they are equal.  Directories,
    links, permissions and the encoding of text are left out: a file holds
    the text written to it, and a file that is not there can be created.
    [spawned] lists the calls made to the process-spawning primitive,
    [stdout] the lines printed, both oldest first. *)
Record World := {
  fs : gmap string string;
  makelog_started : bool;
  stdout : list string;
  spawned : list (popen_args * bool)
}.

Definition set_fs (f : gmap string string -> gmap string string) (w : World) : World :=
  {| fs := f (fs w); makelog_started := makelog_started w;
     stdout := stdout w; spawned := spawned w |}.

Definition M (A : Type) : Type := World -> result A * World.

Definition ret {A} (a : A) : M A := fun w => (Ok a, w).

Definition bind {A B} (m : M A) (k : A -> M B) : M B :=
  fun w => match m w with
           | (Ok a, w') => k a w'
           | (Raise e, w') => (Raise e, w')
           end.

Definition raise {A} (e : exn) : M A := fun w => (Raise e, w).

(** The content of a [bytes] object.  The streams [communicate()] hands
    back are of this type: the pipes are opened without
    [universal_newlines], and nothing decodes them. *)
Definition bytes : Type := string.

(** [s + b] for a [str] and a [bytes]: Python 3 has no such sum. *)
Definition cannot_concatenate : exn :=
  TypeError ("can only concatenate str (not " +:+ dquote +:+ "bytes" +:+ dquote
             +:+ ") to str").

Definition str_add_bytes (s : string) (b : bytes) : M string :=
  raise cannot_concatenate.

(** [try: body  except: handler]; the bare [except] catches every exception,
    and the effects the body had before it raised stay. *)
Definition try_except {A} (body : M A) (handler : exn -> M A) : M A :=
  fun w => match body w with
           | (Ok a, w') => (Ok a, w')
           | (Raise e, w') => handler e w'
           end.

Declare Scope py_scope.
Delimit Scope py_scope with py.
Notation "x <- m ;; k" := (bind m (fun x => k))
  (at level 100, m at next level, right associativity) : py_scope.
Notation "m ;; k" := (bind m (fun _ => k))
  (at level 100, right associativity) : py_scope.
Local Open Scope py_scope.

Definition when (b : bool) (m : M unit) : M unit := if b then m else ret tt.

(** [d[k]] on a dict. *)
Definition getitem (d : gmap string string) (k : string) : M string :=
  match d !! k with
  | Some v => ret v
  | None => raise (KeyError k)
  end.

Definition getitem2 (d : gmap string (gmap string string)) (k1 k2 : string) : M string :=
  match d !! k1 with
  | Some d1 => getitem d1 k2
  | None => raise (KeyError k1)
  end.

(** [print(s)]. *)
Definition print (s : string) : M unit :=
  fun w => (Ok tt, {| fs := fs w; makelog_started := makelog_started w;
                      stdout := stdout w ++ [s]; spawned := spawned w |}).

(** ** File system primitives *)

Definition os_path_isfile (p : string) : M bool :=
  fun w => (Ok (bool_decide (is_Some (fs w !! p))), w).

(** [open(p, 'r').read()]. *)
Definition read_file (p : string) : M string :=
  fun w => match fs w !! p with
           | Some c => (Ok c, w)
           | None => (Raise (IOError p), w)
           end.

(** [open(p, 'a')]: the file is created empty when it does not exist. *)
Definition open_a (p : string) : M unit :=
  fun w => (Ok tt, set_fs (fun m => <[p := default "" (m !! p)]> m) w).

(** [open(p, 'w')]: the file is created or truncated. *)
Definition open_w (p : string) : M unit :=
  fun w => (Ok tt, set_fs (fun m => <[p := ""]> m) w).

(** [f.write(s)] on a file opened for writing at [p]: writes at the end. *)
Definition write (p s : string) : M unit :=
  fun w => (Ok tt, set_fs (fun m => <[p := default "" (m !! p) +:+ s]> m) w).

(** [shutil.copy2(src, dst)]. *)
Definition shutil_copy2 (src dst : string) : M unit :=
  fun w => match fs w !! src with
           | None => (Raise (IOError src), w)
           | Some c =>
               if String.eqb src dst then (Raise (ShutilError src dst), w)
               else (Ok tt, set_fs (fun m => <[dst := c]> m) w)
           end.

(** [os.remove(p)]. *)
Definition os_remove (p : string) : M unit :=
  fun w => match fs w !! p with
           | None => (Raise (OSError p), w)
           | Some _ => (Ok tt, set_fs (fun m => delete p m) w)
           end.

Definition get_makelog_started : M bool :=
  fun w => (Ok (makelog_started w), w).

(** ** The module *)

(** [Directive]; [output] is absent until [execute_command] has run. *)
Record Directive := {
  makelog : string;
  osname : string;
  shell : bool;
  log : string;
  output : option string
}.

Definition set_output (o : string) (self : Directive) : Directive :=
  {| makelog := makelog self; osname := osname self; shell := shell self;
     log := log self; output := Some o |}.

(** [self.output += s]. *)
Definition add_output (s : string) (self : Directive) : M Directive :=
  match output self with
  | Some o => ret (set_output (o +:+ s) self)
  | None => raise (AttributeError "output")
  end.

(** [ProgramDirective(Directive)]; the attribute [option] is [option_]. *)
Record ProgramDirective := {
  directive : Directive;
  application : string;
  program : string;
  executable : string;
  option_ : string;
  args : string;
  program_dir : string;
  program_base : string;
  program_name : string;
  program_ext : string
}.

(** [LyxDirective(ProgramDirective)]. *)
Record LyxDirective := {
  program_directive : ProgramDirective;
  doctype : string;
  pdfout : string
}.

(** Text of [print(self.output)] and of the warning of [check_doctype]. *)
Definition executing : Template :=
  {| before := "Executing: " +:+ dquote; after := dquote |}.

Definition doctype_unrecognized : Template :=
  {| before := "Document type " +:+ dquote;
     after := dquote +:+ " unrecognized. Reverting to default" |}.

(** What the module takes from the rest of the package, from the Python
    library and from the operating system. *)
Class Env := {
  (** [gslab_make_dev.private.utility]. *)
  norm_path : string -> string;
  format_error : string -> string;

  (** [gslab_make_dev.private.messages]. *)
  crit_error_unknown_system : Template;
  crit_error_bad_command : Template;
  crit_error_no_makelog : Template;
  crit_error_no_file : Template;
  crit_error_extension : Template;

  (** [gslab_make_dev.private.metadata], the constant tables. *)
  extensions : gmap string string;
  default_executables : gmap string (gmap string string);
  default_options : gmap string (gmap string string);
  settings : gmap string string;

  (** [os.path]. *)
  os_path_dirname : string -> string;
  os_path_basename : string -> string;
  os_path_splitext : string -> string * string;

  (** The operating system running a child to its end:
      [subprocess.Popen(args, stdout = PIPE, stderr = PIPE, shell = sh)]
      followed by [communicate()], giving the return code and the two
      captured streams, or the exception raised, and the files the child
      leaves. *)
  run_child :
    popen_args -> bool -> gmap string string ->
    result (Z * bytes * bytes) * gmap string string;

  (** [traceback.format_exc()] inside a handler of the exception. *)
  traceback_format_exc : exn -> string
}.

(** The keyword arguments of [Directive.__init__], passed on by the
    subclasses as [**kwargs]. *)
Record kwargs := {
  kw_makelog : string;
  kw_osname : string;
  kw_shell : bool;
  kw_log : string
}.

Section Directives.

Context {E : Env}.

Definition subprocess_Popen (a : popen_args) (sh : bool) : M (Z * bytes * bytes) :=
  fun w =>
    let '(r, fs') := run_child a sh (fs w) in
    (r, {| fs := fs'; makelog_started := makelog_started w;
           stdout := stdout w; spawned := spawned w ++ [(a, sh)] |}).

(** *** Directive *)

Definition check_os (self : Directive) : M unit :=
  if negb (String.eqb (osname self) "posix") && negb (String.eqb (osname self) "nt")
  then raise (CritError (fmt crit_error_unknown_system (osname self)))
  else ret tt.

Definition get_paths (self : Directive) : Directive :=
  {| makelog := norm_path (makelog self);
     osname := osname self;
     shell := shell self;
     log := if negb (String.eqb (log self) "") then norm_path (log self) else log self;
     output := output self |}.

Definition Directive_init (makelog osname : string) (shell : bool) (log : string)
  : M Directive :=
  let self := {| makelog := makelog; osname := osname; shell := shell;
                 log := log; output := None |} in
  check_os self ;;
  ret (get_paths self).

Definition execute_command (self : Directive) (command : string)
  : M ((Z * string) * Directive) :=
  let self := set_output (fmt executing command) self in
  print (fmt executing command) ;;
  let command := split command in
  try_except
    (r <- subprocess_Popen (ArgList command) (shell self) ;;
     let '(returncode, stdout, stderr) := r in
     let exit := (returncode, stderr) in
     self <- (if truthy stdout
              then (line <- str_add_bytes newline stdout ;; add_output line self)
              else ret self) ;;
     self <- (if truthy stderr
              then (line <- str_add_bytes newline stderr ;; add_output line self)
              else ret self) ;;
     ret (exit, self))
    (fun e =>
       let error := fmt crit_error_bad_command (join " " command)
                    +:+ newline +:+ traceback_format_exc e in
       let error := format_error error in
       let exit := (1%Z, error) in
       self <- add_output (newline +:+ error) self ;;
       ret (exit, self)).

(** [with open(p, mode) as f: f.write(self.output)]. *)
Definition write_output (open : string -> M unit) (p : string) (self : Directive) : M unit :=
  open p ;;
  match output self with
  | Some o => write p o
  | None => raise (AttributeError "output")
  end.

Definition write_log (self : Directive) : M unit :=
  when (truthy (makelog self))
    (started <- get_makelog_started ;;
     isfile <- os_path_isfile (makelog self) ;;
     if negb (started && isfile)
     then raise (CritError (fmt crit_error_no_makelog (makelog self)))
     else write_output open_a (makelog self) self) ;;
  when (truthy (log self))
    (write_output open_w (log self) self).

(** *** ProgramDirective *)

Definition parse_program (self : ProgramDirective) : ProgramDirective :=
  let program := norm_path (program self) in
  let program_dir := os_path_dirname program in
  let program_base := os_path_basename program in
  let '(program_name, program_ext) := os_path_splitext program_base in
  {| directive := directive self; application := application self;
     program := program; executable := executable self;
     option_ := option_ self; args := args self;
     program_dir := program_dir; program_base := program_base;
     program_name := program_name; program_ext := program_ext |}.

Definition check_program (self : ProgramDirective) : M unit :=
  isfile <- os_path_isfile (program self) ;;
  when (negb isfile)
    (raise (CritError (fmt crit_error_no_file (program self)))) ;;
  ext <- getitem extensions (application self) ;;
  when (negb (String.eqb (program_ext self) ext))
    (raise (CritError (fmt crit_error_extension (program self)))).

Definition set_executable (e : string) (self : ProgramDirective) : ProgramDirective :=
  {| directive := directive self; application := application self;
     program := program self; executable := e;
     option_ := option_ self; args := args self;
     program_dir := program_dir self; program_base := program_base self;
     program_name := program_name self; program_ext := program_ext self |}.

Definition set_option (o : string) (self : ProgramDirective) : ProgramDirective :=
  {| directive := directive self; application := application self;
     program := program self; executable := executable self;
     option_ := o; args := args self;
     program_dir := program_dir self; program_base := program_base self;
     program_name := program_name self; program_ext := program_ext self |}.

Definition get_executable (self : ProgramDirective) : M ProgramDirective :=
  if negb (truthy (executable self)) then
    e <- getitem2 default_executables (osname (directive self)) (application self) ;;
    ret (set_executable e self)
  else ret self.

Definition get_option (self : ProgramDirective) : M ProgramDirective :=
  if negb (truthy (option_ self)) then
    o <- getitem2 default_options (osname (directive self)) (application self) ;;
    ret (set_option o self)
  else ret self.

Definition ProgramDirective_init
    (application program executable option args : string) (kw : kwargs)
  : M ProgramDirective :=
  d <- Directive_init (kw_makelog kw) (kw_osname kw) (kw_shell kw) (kw_log kw) ;;
  let self := {| directive := d; application := application;
                 program := program; executable := executable;
                 option_ := option; args := args;
                 program_dir := ""; program_base := "";
                 program_name := ""; program_ext := "" |} in
  let self := parse_program self in
  check_program self ;;
  self <- get_executable self ;;
  self <- get_option self ;;
  ret self.

Definition move_program_output (self : ProgramDirective)
    (program_output log_file : string) : M unit :=
  let raw := program_output in
  r <- try_except
         (let program_output := norm_path raw in
          out <- read_file program_output ;;
          ret (program_output, out))
         (fun _ => raise (CritError (fmt crit_error_no_file (norm_path raw)))) ;;
  let '(program_output, out) := r in
  let makelog := makelog (directive self) in
  when (truthy makelog)
    (started <- get_makelog_started ;;
     isfile <- os_path_isfile makelog ;;
     if negb (started && isfile)
     then raise (CritError (fmt crit_error_no_makelog makelog))
     else (open_a makelog ;; write makelog out)) ;;
  if truthy log_file then
    when (negb (String.eqb program_output log_file))
      (shutil_copy2 program_output log_file ;;
       os_remove program_output)
  else os_remove program_output.

(** *** LyxDirective *)

Definition check_doctype (self : LyxDirective) : M LyxDirective :=
  if negb (bool_decide (doctype self ∈ ["handout"; "comments"; ""])) then
    print (fmt doctype_unrecognized (doctype self)) ;;
    ret {| program_directive := program_directive self;
           doctype := ""; pdfout := pdfout self |}
  else ret self.

Definition get_pdfout (self : LyxDirective) : M LyxDirective :=
  self <- (if truthy (doctype self) then
             temp_dir <- getitem settings "temp_dir" ;;
             ret {| program_directive := program_directive self;
                    doctype := doctype self; pdfout := temp_dir |}
           else ret self) ;;
  ret {| program_directive := program_directive self;
         doctype := doctype self; pdfout := norm_path (pdfout self) |}.

(** [pdfout] defaults to [metadata.settings['output_dir']], read once when
    the class is defined; a caller that omits it passes that value. *)
Definition LyxDirective_init (doctype pdfout : string)
    (application program executable option args : string) (kw : kwargs)
  : M LyxDirective :=
  pd <- ProgramDirective_init application program executable option args kw ;;
  let self := {| program_directive := pd; doctype := doctype; pdfout := pdfout |} in
  self <- check_doctype self ;;
  self <- get_pdfout self ;;
  ret self.

End Directives.

(** ** A concrete machine

    The helper modules of the package, the tables of [metadata] and the
    operating system are arguments of the model.  [posixpath] gives the
    functions of [os.path] on a POSIX system, and [Sample] an environment
    with them on which the statements below are evaluated. *)

Module posixpath.

(** [s] cut at its last [ch]: the text before it and the text after it. *)
Fixpoint rbreak (ch : ascii) (s : string) : option (string * string) :=
  match s with
  | EmptyString => None
  | String c s' =>
      match rbreak ch s' with
      | Some (a, b) => Some (String c a, b)
      | None => if Ascii.eqb c ch then Some ("", s') else None
      end
  end.

(** [s.rstrip('/')]. *)
Fixpoint rstrip_sep (s : string) : string :=
  match s with
  | EmptyString => ""
  | String c s' =>
      let r := rstrip_sep s' in
      if String.eqb r "" && Ascii.eqb c "/" then "" else String c r
  end.

(** The leading dots of [s] and the rest. *)
Fixpoint span_dots (s : string) : string * string :=
  match s with
  | String c s' =>
      if Ascii.eqb c "." then
        let '(d, r) := span_dots s' in (String c d, r)
      else ("", s)
  | EmptyString => ("", "")
  end.

Definition basename (p : string) : string :=
  match rbreak "/" p with
  | Some (_, b) => b
  | None => p
  end.

Definition dirname (p : string) : string :=
  match rbreak "/" p with
  | Some (a, _) =>
      let head := a +:+ "/" in
      if String.eqb (rstrip_sep head) "" then head else rstrip_sep head
  | None => ""
  end.

Definition splitext (p : string) : string * string :=
  let '(head, tail) := match rbreak "/" p with
                       | Some (a, b) => (a +:+ "/", b)
                       | None => ("", p)
                       end in
  let '(dots, rest) := span_dots tail in
  match rbreak "." rest with
  | Some (root, ext) => (head +:+ dots +:+ root, "." +:+ ext)
  | None => (p, "")
  end.

End posixpath.

Module Sample.

(** Relative paths are taken from the working directory [/work]. *)
Definition norm_path (p : string) : string :=
  if String.prefix "/" p then p else "/work/" +:+ p.

Definition rule : string := "----------".

Definition format_error (e : string) : string :=
  rule +:+ newline +:+ e +:+ newline +:+ rule.

Definition crit_error_unknown_system : Template :=
  {| before := "ERROR! Unknown system: "; after := "" |}.
Definition crit_error_bad_command : Template :=
  {| before := "ERROR! Command `"; after := "` executed with errors" |}.
Definition crit_error_no_makelog : Template :=
  {| before := "ERROR! Makelog `"; after := "` not found" |}.
Definition crit_error_no_file : Template :=
  {| before := "ERROR! File `"; after := "` not found" |}.
Definition crit_error_extension : Template :=
  {| before := "ERROR! File `"; after := "` has the wrong extension" |}.

Definition extensions : gmap string string :=
  {[ "stata" := ".do"; "lyx" := ".lyx"; "perl" := ".pl" ]}.

Definition default_executables : gmap string (gmap string string) :=
  {[ "posix" := {[ "stata" := "stata-mp"; "lyx" := "lyx"; "perl" := "perl" ]};
     "nt" := {[ "stata" := "%STATAEXE%"; "lyx" := "lyx"; "perl" := "perl" ]} ]}.

Definition default_options : gmap string (gmap string string) :=
  {[ "posix" := {[ "stata" := "-e"; "lyx" := "-e pdf2"; "perl" := "" ]};
     "nt" := {[ "stata" := "/e"; "lyx" := "-e pdf2"; "perl" := "" ]} ]}.

Definition settings : gmap string string :=
  {[ "output_dir" := "../output"; "temp_dir" := "../temp";
     "makelog" := "../log/make.log" ]}.

(** A machine that knows two programs: [echo] prints its arguments and
    [false] fails; starting anything else raises. *)
Definition run_child (a : popen_args) (sh : bool) (files : gmap string string)
  : result (Z * bytes * bytes) * gmap string string :=
  match a with
  | ArgList ("echo" :: rest) => (Ok (0%Z, join " " rest +:+ newline, ""), files)
  | ArgList ("false" :: _) => (Ok (1%Z, "", ""), files)
  | ArgList (_ :: _) => (Raise (OSError "[Errno 2] No such file or directory"), files)
  | ArgList [] => (Raise (OSError "list index out of range"), files)
  | ArgStr _ => (Raise (OSError "[Errno 2] No such file or directory"), files)
  end.

Definition traceback_format_exc (e : exn) : string :=
  "Traceback (most recent call last):" +:+ newline +:+
  match e with
  | CritError m => "CritError: " +:+ m
  | KeyError k => "KeyError: " +:+ k
  | AttributeError a => "AttributeError: " +:+ a
  | IOError p => "IOError: " +:+ p
  | OSError m => "OSError: " +:+ m
  | ShutilError a b => "Error: " +:+ a +:+ " and " +:+ b +:+ " are the same file"
  | TypeError m => "TypeError: " +:+ m
  end +:+ newline.

Definition env : Env :=
  Build_Env norm_path format_error
    crit_error_unknown_system crit_error_bad_command crit_error_no_makelog
    crit_error_no_file crit_error_extension
    extensions default_executables default_options settings
    posixpath.dirname posixpath.basename posixpath.splitext
    run_child traceback_format_exc.

Definition world (files : gmap string string) (started : bool) : World :=
  {| fs := files; makelog_started := started; stdout := []; spawned := [] |}.

Definition posix : kwargs :=
  {| kw_makelog := "/work/log/make.log"; kw_osname := "posix";
     kw_shell := false; kw_log := "" |}.

End Sample.

(** ** Vocabulary of the statements *)

(** The text [s] on a line of its own, when there is any. *)
Definition own_line (s : string) : string :=
  if truthy s then newline +:+ s else "".

(** A file with [s] written at its end, a file copied, a file deleted. *)
Definition appended (p s : string) (files : gmap string string) : gmap string string :=
  <[p := default "" (files !! p) +:+ s]> files.

Definition overwritten (p s : string) (files : gmap string string) : gmap string string :=
  <[p := s]> files.

Definition copied (src dst : string) (files : gmap string string) : gmap string string :=
  match files !! src with
  | Some c => <[dst := c]> files
  | None => files
  end.

Definition removed (p : string) (files : gmap string string) : gmap string string :=
  delete p files.

(** The files [write_log] leaves when it goes through. *)
Definition logged (self : Directive) (o : string) (files : gmap string string)
  : gmap string string :=
  let files := appended (makelog self) o files in
  if truthy (log self) then overwritten (log self) o files else files.

(** The files [move_program_output] leaves when it goes through: [out] at
    the end of the makelog [mk] when there is one, then the program output
    [p] copied to [log_file] and deleted, left where it is, or deleted. *)
Definition relocated (mk p log_file out : string) (files : gmap string string)
  : gmap string string :=
  let files := if truthy mk then appended mk out files else files in
  if truthy log_file then
    if String.eqb p log_file then files else removed p (copied p log_file files)
  else removed p files.

(** The program directive as [parse_program] leaves it, before
    [check_program] looks at it. *)
Definition parsed {E : Env} (application program executable option args : string)
    (kw : kwargs) : ProgramDirective :=
  parse_program
    {| directive := get_paths {| makelog := kw_makelog kw; osname := kw_osname kw;
                                 shell := kw_shell kw; log := kw_log kw;
                                 output := None |};
       application := application; program := program;
       executable := executable; option_ := option; args := args;
       program_dir := ""; program_base := "";
       program_name := ""; program_ext := "" |}.

(** [n] copies of [s] in a row. *)
Fixpoint repeated (n : nat) (s : string) : string :=
  match n with
  | O => ""
  | S n' => s +:+ repeated n' s
  end.

(** [self.write_log()] called [n] times in a row. *)
Fixpoint write_log_times {E : Env} (n : nat) (self : Directive) : M unit :=
  match n with
  | O => ret tt
  | S n' => write_log self ;; write_log_times n' self
  end.

(** The diagnostic [execute_command] builds in its handler for the
    exception [e]. *)
Definition diagnostic {E : Env} (command : string) (e : exn) : string :=
  format_error (fmt crit_error_bad_command (join " " (split command))
                +:+ newline +:+ traceback_format_exc e).

(** What [execute_command] reports of a child: the pair it returns and what
    follows the banner in [output].  A child that wrote nothing is reported
    by its return code; for a child that wrote to either stream, putting the
    stream after the banner raises, and the handler reports that. *)
Definition report {E : Env} (command : string) (r : result (Z * bytes * bytes))
  : (Z * string) * string :=
  match r with
  | Ok (returncode, stdout, stderr) =>
      if truthy stdout || truthy stderr
      then ((1%Z, diagnostic command cannot_concatenate),
            newline +:+ diagnostic command cannot_concatenate)
      else ((returncode, stderr), "")
  | Raise e => ((1%Z, diagnostic command e), newline +:+ diagnostic command e)
  end.

(** The world once the banner is printed and the child has been run. *)
Definition after_child (w : World) (banner : string) (a : popen_args) (sh : bool)
    (files : gmap string string) : World :=
  {| fs := files; makelog_started := makelog_started w;
     stdout := stdout w ++ [banner]; spawned := spawned w ++ [(a, sh)] |}.

(** Directives and worlds on which the statements are evaluated. *)
Module Sample_inputs.

Definition shell_directive : Directive :=
  {| makelog := "/work/log/make.log"; osname := "posix"; shell := true;
     log := ""; output := None |}.

Definition plain_directive : Directive :=
  {| makelog := "/work/log/make.log"; osname := "posix"; shell := false;
     log := ""; output := None |}.

Definition empty_world : World := Sample.world ∅ true.

(** A directive that has run [echo hi], logging to the make log and to a
    log of its own. *)
Definition logging_directive : Directive :=
  {| makelog := "/work/log/make.log"; osname := "posix"; shell := false;
     log := "/work/log/echo.log";
     output := Some ("Executing: echo hi" +:+ newline +:+ "hi") |}.

(** The same with its own log on the make log. *)
Definition aliased_directive : Directive :=
  {| makelog := "/work/log/make.log"; osname := "posix"; shell := false;
     log := "/work/log/make.log";
     output := Some ("Executing: echo hi" +:+ newline +:+ "hi") |}.

(** A Stata directive, and worlds in which Stata has left its own log. *)
Definition stata_directive : ProgramDirective :=
  {| directive := plain_directive; application := "stata";
     program := "/work/code/analysis.do"; executable := "stata-mp";
     option_ := "-e"; args := "";
     program_dir := "/work/code"; program_base := "analysis.do";
     program_name := "analysis"; program_ext := ".do" |}.

Definition stata_files : gmap string string :=
  {[ "/work/log/make.log" := "Makelog started" +:+ newline;
     "/work/code/analysis.do" := "display 1";
     "/work/analysis.log" := ". display 1" +:+ newline +:+ "1" ]}.

Definition stata_world : World := Sample.world stata_files true.
Definition stata_unstarted_world : World := Sample.world stata_files false.

Definition lyx_files : gmap string string :=
  {[ "/work/log/make.log" := "Makelog started" +:+ newline;
     "/work/paper.lyx" := "#LyX 2.3" ]}.

Definition lyx_world : World := Sample.world lyx_files true.

Definition lyx_program : ProgramDirective :=
  {| directive := plain_directive; application := "lyx";
     program := "/work/paper.lyx"; executable := "lyx";
     option_ := "-e pdf2"; args := "";
     program_dir := "/work"; program_base := "paper.lyx";
     program_name := "paper"; program_ext := ".lyx" |}.

Definition started_world : World :=
  Sample.world {[ "/work/log/make.log" := "Makelog started" +:+ newline ]} true.

Definition unstarted_world : World :=
  Sample.world {[ "/work/log/make.log" := "Makelog started" +:+ newline ]} false.

End Sample_inputs.


(** ** Vocabulary of the further statements *)

(** A string without white space. *)
Fixpoint no_space (s : string) : bool :=
  match s with
  | EmptyString => true
  | String c s' => negb (isspace c) && no_space s'
  end.

(** What [str.split()] returns: strings that are not empty and hold no
    white space. *)
Definition token (s : string) : Prop := s <> "" /\ no_space s = true.

(** [d[k1][k2]] when both keys are there. *)
Definition lookup2 (d : gmap string (gmap string string)) (k1 k2 : string)
  : option string :=
  match d !! k1 with
  | Some d1 => d1 !! k2
  | None => None
  end.

(** The key [d[k1][k2]] fails on. *)
Definition missing_key (d : gmap string (gmap string string)) (k1 k2 : string)
  : string :=
  match d !! k1 with
  | Some _ => k2
  | None => k1
  end.

(** An attribute as passed, or its default from a table of [metadata] when
    it is passed empty. *)
Definition defaulted (supplied : string) (d : gmap string (gmap string string))
    (k1 k2 : string) : option string :=
  if truthy supplied then Some supplied else lookup2 d k1 k2.

(** A computation that leaves the world as it finds it, whatever it
    returns or raises. *)
Definition reads_only {A} (m : M A) : Prop := forall w, snd (m w) = w.

(** The directive [Directive.__init__] builds for a known system. *)
Definition constructed {E : Env} (makelog osname : string) (shell : bool)
    (log : string) : Directive :=
  {| makelog := norm_path makelog; osname := osname; shell := shell;
     log := if String.eqb log "" then "" else norm_path log;
     output := None |}.

(** More directives and worlds on which the statements are evaluated. *)
Module More_inputs.

(** A directive that has run [echo hi] and logs to the makelog only. *)
Definition logged_directive : Directive :=
  {| makelog := "/work/log/make.log"; osname := "posix"; shell := false;
     log := ""; output := Some ("Executing: echo hi" +:+ newline +:+ "hi") |}.

(** A directive that has not run a command yet. *)
Definition fresh_directive : Directive :=
  {| makelog := "/work/log/make.log"; osname := "posix"; shell := false;
     log := "/work/log/echo.log"; output := None |}.

(** Tables of [metadata] that know Stata on POSIX systems only and have no
    temp directory. *)
Definition posix_only : Env :=
  Build_Env Sample.norm_path Sample.format_error
    Sample.crit_error_unknown_system Sample.crit_error_bad_command
    Sample.crit_error_no_makelog Sample.crit_error_no_file
    Sample.crit_error_extension
    {[ "stata" := ".do"; "lyx" := ".lyx" ]}
    {[ "posix" := {[ "stata" := "stata-mp"; "lyx" := "lyx" ]} ]}
    {[ "posix" := {[ "stata" := "-e" ]} ]}
    {[ "output_dir" := "../output" ]}
    posixpath.dirname posixpath.basename posixpath.splitext
    Sample.run_child Sample.traceback_format_exc.

Definition nt : kwargs :=
  {| kw_makelog := "/work/log/make.log"; kw_osname := "nt";
     kw_shell := false; kw_log := "" |}.

End More_inputs.

(** ** The text and path functions on examples *)

Example split_echo : split "  echo   hi there " = ["echo"; "hi"; "there"].
Proof. reflexivity. Qed.
Example split_tabs : split ("a" +:+ String "009"%char "b" +:+ newline) = ["a"; "b"].
Proof. reflexivity. Qed.
Example split_empty : split "   " = [].
Proof. reflexivity. Qed.
Example basename_ex : posixpath.basename "/work/code/analysis.do" = "analysis.do".
Proof. reflexivity. Qed.
Example dirname_ex : posixpath.dirname "/work/code/analysis.do" = "/work/code".
Proof. reflexivity. Qed.
Example dirname_root : posixpath.dirname "/analysis.do" = "/".
Proof. reflexivity. Qed.
Example splitext_ex : posixpath.splitext "analysis.v2.do" = ("analysis.v2", ".do").
Proof. reflexivity. Qed.
Example splitext_hidden : posixpath.splitext ".profile" = (".profile", "").
Proof. reflexivity. Qed.
Example splitext_dir : posixpath.splitext "a.b/c" = ("a.b/c", "").
Proof. reflexivity. Qed.

(** ** Text lemmas *)

Lemma app_nil_l (s : string) : "" +:+ s = s.
Proof. reflexivity. Qed.

Lemma app_cons (c : ascii) (a b : string) : String c a +:+ b = String c (a +:+ b).
Proof. reflexivity. Qed.

Lemma app_nil_r (s : string) : s +:+ "" = s.
Proof. induction s as [|c s IH]; [reflexivity|]. rewrite app_cons. by f_equal. Qed.

Lemma app_assoc (a b c : string) : (a +:+ b) +:+ c = a +:+ b +:+ c.
Proof.
  induction a as [|x a IH]; [reflexivity|].
  rewrite !app_cons. by f_equal.
Qed.

Lemma truthy_true (s : string) : truthy s = true <-> s <> "".
Proof.
  unfold truthy. rewrite negb_true_iff. apply String.eqb_neq.
Qed.

Lemma truthy_false (s : string) : truthy s = false <-> s = "".
Proof.
  unfold truthy. rewrite negb_false_iff. apply String.eqb_eq.
Qed.

Lemma truthy_app_r (a b : string) : truthy b = true -> truthy (a +:+ b) = true.
Proof.
  rewrite !truthy_true. intros Hb Hab. apply Hb.
  destruct a; [exact Hab | discriminate].
Qed.

Lemma prefix_app (n post : string) : String.prefix n (n +:+ post) = true.
Proof.
  induction n as [|c n IH]; [by destruct post|].
  rewrite app_cons. simpl. by destruct (ascii_dec c c).
Qed.

Lemma is_infix_unfold (needle hay : string) :
  is_infix needle hay =
  String.prefix needle hay
  || match hay with
     | EmptyString => false
     | String _ hay' => is_infix needle hay'
     end.
Proof. by destruct hay. Qed.

Lemma is_infix_app (pre n post : string) : is_infix n (pre +:+ n +:+ post) = true.
Proof.
  induction pre as [|c pre IH].
  - rewrite app_nil_l, is_infix_unfold. by rewrite prefix_app.
  - rewrite app_cons, is_infix_unfold, IH. apply orb_true_r.
Qed.

Lemma embeds_is_infix (hay needle : string) : embeds hay needle -> is_infix needle hay = true.
Proof. intros (pre & post & ->). apply is_infix_app. Qed.

Lemma embeds_fmt (t : Template) (s : string) : embeds (fmt t s) s.
Proof. exists (before t), (after t). reflexivity. Qed.

Lemma embeds_app_l (a b n : string) : embeds a n -> embeds (a +:+ b) n.
Proof.
  intros (pre & post & ->). exists pre, (post +:+ b).
  by rewrite !app_assoc.
Qed.

Lemma embeds_app_r (a b n : string) : embeds b n -> embeds (a +:+ b) n.
Proof.
  intros (pre & post & ->). exists (a +:+ pre), post.
  by rewrite !app_assoc.
Qed.

Lemma embeds_refl (s : string) : embeds s s.
Proof. exists "", "". by rewrite app_nil_l, app_nil_r. Qed.

(** ** Running the monad *)

Lemma bind_ok {A B} (m : M A) (k : A -> M B) (w w' : World) (a : A) :
  m w = (Ok a, w') -> bind m k w = k a w'.
Proof. unfold bind. by intros ->. Qed.

(** One statement that goes through, by computation. *)
Ltac step := erewrite bind_ok by reflexivity.

Lemma bind_raise {A B} (m : M A) (k : A -> M B) (w w' : World) (e : exn) :
  m w = (Raise e, w') -> bind m k w = (Raise e, w').
Proof. unfold bind. by intros ->. Qed.

(** ** execute_command *)

Lemma execute_command_run {E : Env} (self : Directive) (command : string)
    (w : World) :
  execute_command self command w =
  (Ok (fst (report command
              (fst (run_child (ArgList (split command)) (shell self) (fs w)))),
       set_output
         (fmt executing command
          +:+ snd (report command
                     (fst (run_child (ArgList (split command)) (shell self) (fs w)))))
         self),
   after_child w (fmt executing command) (ArgList (split command)) (shell self)
     (snd (run_child (ArgList (split command)) (shell self) (fs w)))).
Proof.
  unfold execute_command, bind, try_except, subprocess_Popen, print. simpl.
  destruct (run_child (ArgList (split command)) (shell self) (fs w))
    as [[[[rc out] err]|e] files]; simpl; [|reflexivity].
  unfold str_add_bytes, raise, ret.
  destruct (truthy out), (truthy err); simpl; rewrite ?app_nil_r; reflexivity.
Qed.

Lemma execute_command_raised {E : Env} (self : Directive) (command : string)
    (w : World) (e : exn) (files : gmap string string) :
  run_child (ArgList (split command)) (shell self) (fs w) = (Raise e, files) ->
  let error := format_error (fmt crit_error_bad_command (join " " (split command))
                             +:+ newline +:+ traceback_format_exc e) in
  execute_command self command w =
  (Ok ((1%Z, error),
       set_output (fmt executing command +:+ newline +:+ error) self),
   after_child w (fmt executing command) (ArgList (split command)) (shell self) files).
Proof.
  intros Hrun. rewrite execute_command_run, Hrun. reflexivity.
Qed.

(** Whatever the shell flag, [execute_command] splits the command into
    white-space-delimited tokens and hands the list of tokens to the
    process-spawning primitive, with the shell flag passed along unchanged:
    exactly one child is spawned, on [ArgList (split command)]. *)
Lemma execute_command_always_splits {E : Env} (self : Directive)
    (command : string) (w : World) :
  spawned (snd (execute_command self command w)) =
  (spawned w ++ [(ArgList (split command), shell self)])%list.
Proof. by rewrite execute_command_run. Qed.

(** C1.  The code departs from the claim: with the shell flag set, the
    command [echo hi] is split all the same, and reaches the spawning
    primitive as the two tokens [echo] and [hi], not as the string it was
    given as. *)
Theorem execute_command_shell_still_splits :
  shell Sample_inputs.shell_directive = true /\
  spawned (snd (execute_command (E := Sample.env) Sample_inputs.shell_directive
                  "echo hi" Sample_inputs.empty_world))
  = [(ArgList ["echo"; "hi"], true)] /\
  spawned (snd (execute_command (E := Sample.env) Sample_inputs.shell_directive
                  "echo hi" Sample_inputs.empty_world))
  <> (spawned Sample_inputs.empty_world ++ [(ArgStr "echo hi", true)])%list.
Proof.
  split; [reflexivity|]. split; [reflexivity|].
  vm_compute. discriminate.
Qed.

(** C2, amended.  [execute_command] returns on every command, whatever the
    child does.  When running the child raises, the exit code returned is 1
    and the text returned with it is [format_error] of a message that embeds
    the tokens of the command joined by single spaces (the command itself,
    when it is written that way) and the trace of the exception; that text is
    not empty as long as [format_error] keeps a non-empty message non-empty. *)
Theorem execute_command_never_raises {E : Env} (self : Directive)
    (command : string) (w : World) :
  (exists exit self' w',
     execute_command self command w = (Ok (exit, self'), w')) /\
  (forall e files,
     run_child (ArgList (split command)) (shell self) (fs w) = (Raise e, files) ->
     (forall s, s <> "" -> format_error s <> "") ->
     exists message self' w',
       execute_command self command w
       = (Ok ((1%Z, format_error message), self'), w') /\
       format_error message <> "" /\
       embeds message (join " " (split command)) /\
       (join " " (split command) = command -> embeds message command) /\
       embeds message (traceback_format_exc e)).
Proof.
  split.
  - rewrite execute_command_run. eauto.
  - intros e files Hrun Hfmt.
    rewrite (execute_command_raised _ _ _ _ _ Hrun).
    set (message := _ +:+ newline +:+ traceback_format_exc e).
    assert (Hcmd : embeds message (join " " (split command))).
    { apply embeds_app_l, embeds_fmt. }
    exists message. do 2 eexists. split; [reflexivity|].
    repeat split.
    + apply Hfmt. apply truthy_true, truthy_app_r. reflexivity.
    + exact Hcmd.
    + by intros <-.
    + apply embeds_app_r, embeds_app_r, embeds_refl.
Qed.

(** C2 as stated fails: the command [ls  -l], written with two spaces, is
    not part of the diagnostic returned when no such program can be started;
    the diagnostic names [ls -l]. *)
Lemma execute_command_diagnostic_rejoins_tokens :
  exists diagnostic self' w',
    execute_command (E := Sample.env) Sample_inputs.plain_directive "ls  -l"
      Sample_inputs.empty_world
    = (Ok ((1%Z, diagnostic), self'), w') /\
    embeds diagnostic "ls -l" /\
    ~ embeds diagnostic "ls  -l".
Proof.
  do 3 eexists. split; [vm_compute; reflexivity|]. split.
  - exists ("----------" +:+ newline +:+ "ERROR! Command `"). eexists.
    vm_compute. reflexivity.
  - intros H%embeds_is_infix. vm_compute in H. discriminate.
Qed.

Lemma execute_command_never_raises_witness :
  exists message self' w',
    execute_command (E := Sample.env) Sample_inputs.plain_directive "ls  -l"
      Sample_inputs.empty_world
    = (Ok ((1%Z, Sample.format_error message), self'), w') /\
    Sample.format_error message <> "" /\
    embeds message "ls -l".
Proof.
  destruct (execute_command_never_raises (E := Sample.env)
              Sample_inputs.plain_directive "ls  -l" Sample_inputs.empty_world)
    as [_ H].
  destruct (H (OSError "[Errno 2] No such file or directory") ∅)
    as (message & self' & w' & Hrun & Hne & Hcmd & _).
  - reflexivity.
  - intros s _. discriminate.
  - exists message, self', w'. split; [exact Hrun|]. split; [exact Hne|].
    exact Hcmd.
Defined.

(** C7.  The code departs from the claim.  The child of [echo hi there]
    ends with code 0 and has written [hi there] to its standard output, and
    nothing to its standard error.  Putting the captured output after the
    banner raises, since the one is bytes and the other text; the handler
    takes over, and [execute_command] returns the code 1 with a diagnostic
    that carries the type error.  [output] is the banner followed by that
    diagnostic, not the banner followed by what the child wrote. *)
Theorem execute_command_loses_streams :
  run_child (Env := Sample.env) (ArgList (split "echo hi there"))
    (shell Sample_inputs.plain_directive) (fs Sample_inputs.empty_world)
  = (Ok (0%Z, "hi there" +:+ newline, ""), ∅) /\
  exists error self' w',
    execute_command (E := Sample.env) Sample_inputs.plain_directive
      "echo hi there" Sample_inputs.empty_world
    = (Ok ((1%Z, error), self'), w') /\
    embeds error "TypeError" /\
    output self' = Some (fmt executing "echo hi there" +:+ newline +:+ error) /\
    output self'
    <> Some (fmt executing "echo hi there"
             +:+ own_line ("hi there" +:+ newline) +:+ own_line "").
Proof.
  split; [reflexivity|].
  do 3 eexists. split; [vm_compute; reflexivity|]. split; [|split].
  - exists ("----------" +:+ newline
            +:+ "ERROR! Command `echo hi there` executed with errors" +:+ newline
            +:+ "Traceback (most recent call last):" +:+ newline).
    eexists. vm_compute. reflexivity.
  - reflexivity.
  - vm_compute. discriminate.
Qed.

(** ** write_log *)


Lemma appended_lookup_ne (p q s : string) (files : gmap string string) :
  p <> q -> appended p s files !! q = files !! q.
Proof. intros Hne. by apply lookup_insert_ne. Qed.

(** Opening an existing file for appending and writing [s] to it. *)
Lemma open_a_write (p s : string) (w : World) :
  (open_a p ;; write p s) w = (Ok tt, set_fs (appended p s) w).
Proof.
  unfold bind, open_a, write, set_fs, appended. simpl. do 2 f_equal.
  rewrite lookup_insert_eq, insert_insert_eq. reflexivity.
Qed.

(** Opening a file for writing and writing [s] to it. *)
Lemma open_w_write (p s : string) (w : World) :
  (open_w p ;; write p s) w = (Ok tt, set_fs (overwritten p s) w).
Proof.
  unfold bind, open_w, write, set_fs, overwritten. simpl. do 2 f_equal.
  rewrite lookup_insert_eq, insert_insert_eq. reflexivity.
Qed.

Lemma write_output_a {E : Env} (p o : string) (self : Directive) (w : World) :
  output self = Some o ->
  write_output open_a p self w = (Ok tt, set_fs (appended p o) w).
Proof. unfold write_output. intros ->. apply open_a_write. Qed.

Lemma write_output_w {E : Env} (p o : string) (self : Directive) (w : World) :
  output self = Some o ->
  write_output open_w p self w = (Ok tt, set_fs (overwritten p o) w).
Proof. unfold write_output. intros ->. apply open_w_write. Qed.

Lemma write_log_run {E : Env} (self : Directive) (w : World) (o : string) :
  makelog self <> "" ->
  makelog_started w = true ->
  is_Some (fs w !! makelog self) ->
  output self = Some o ->
  write_log self w = (Ok tt, set_fs (logged self o) w).
Proof.
  intros Hmk%truthy_true Hstarted Hfile Hout.
  unfold write_log, when. rewrite Hmk.
  erewrite bind_ok; cycle 1.
  { step.
    step.
    rewrite Hstarted, bool_decide_eq_true_2 by exact Hfile. simpl.
    by apply write_output_a. }
  unfold logged. destruct (truthy (log self)).
  - by rewrite (write_output_w _ o).
  - reflexivity.
Qed.

(** C3.  When [write_log] is called with [makelog] set and either the
    makelog-started flag is false or the makelog file does not exist, it
    raises the configuration error and leaves the world as it found it: no
    file is created or modified, neither the makelog nor the directive's
    own log. *)
Theorem write_log_not_started {E : Env} (self : Directive) (w : World) :
  makelog self <> "" ->
  makelog_started w = false \/ fs w !! makelog self = None ->
  write_log self w
  = (Raise (CritError (fmt crit_error_no_makelog (makelog self))), w).
Proof.
  intros Hmk%truthy_true Hpre.
  unfold write_log, when. rewrite Hmk.
  apply bind_raise.
  step.
  step.
  destruct Hpre as [-> | ->]; [reflexivity|].
  rewrite bool_decide_eq_false_2 by (intros [? ?]; discriminate).
  by rewrite andb_false_r.
Qed.

Lemma write_log_not_started_witness :
  write_log (E := Sample.env) Sample_inputs.logging_directive
    Sample_inputs.unstarted_world
  = (Raise (CritError "ERROR! Makelog `/work/log/make.log` not found"),
     Sample_inputs.unstarted_world) /\
  write_log (E := Sample.env) Sample_inputs.logging_directive
    Sample_inputs.empty_world
  = (Raise (CritError "ERROR! Makelog `/work/log/make.log` not found"),
     Sample_inputs.empty_world).
Proof.
  split.
  - apply (write_log_not_started (E := Sample.env)
             Sample_inputs.logging_directive Sample_inputs.unstarted_world).
    + discriminate.
    + left. reflexivity.
  - apply (write_log_not_started (E := Sample.env)
             Sample_inputs.logging_directive Sample_inputs.empty_world).
    + discriminate.
    + right. reflexivity.
Defined.


(** ** move_program_output *)

Lemma read_file_ok (p c : string) (w : World) :
  fs w !! p = Some c -> read_file p w = (Ok c, w).
Proof. unfold read_file. by intros ->. Qed.

Lemma shutil_copy2_ok (src dst c : string) (w : World) :
  fs w !! src = Some c ->
  src <> dst ->
  shutil_copy2 src dst w = (Ok tt, set_fs (copied src dst) w).
Proof.
  intros Hsrc Hne%String.eqb_neq.
  unfold shutil_copy2, set_fs, copied. by rewrite Hsrc, Hne.
Qed.

Lemma os_remove_ok (p : string) (w : World) :
  is_Some (fs w !! p) -> os_remove p w = (Ok tt, set_fs (removed p) w).
Proof. intros [c Hc]. unfold os_remove. by rewrite Hc. Qed.

Lemma appended_is_Some (p q s : string) (files : gmap string string) :
  is_Some (files !! q) -> is_Some (appended p s files !! q).
Proof.
  intros Hq. unfold appended. destruct (decide (p = q)) as [->|Hne].
  - rewrite lookup_insert_eq. eauto.
  - by rewrite lookup_insert_ne.
Qed.

Lemma copied_lookup_src (src dst : string) (files : gmap string string) :
  is_Some (files !! src) -> is_Some (copied src dst files !! src).
Proof.
  intros [c Hc]. unfold copied. rewrite Hc.
  destruct (decide (dst = src)) as [->|Hne].
  - rewrite lookup_insert_eq. eauto.
  - rewrite lookup_insert_ne by exact Hne. eauto.
Qed.

(** The first step: the output is read, or the error names it. *)
Lemma read_program_output {E : Env} (raw : string) (w : World) :
  try_except
    (let program_output := norm_path raw in
     out <- read_file program_output ;;
     ret (program_output, out))
    (fun _ => raise (CritError (fmt crit_error_no_file (norm_path raw)))) w
  = match fs w !! norm_path raw with
    | Some out => (Ok (norm_path raw, out), w)
    | None => (Raise (CritError (fmt crit_error_no_file (norm_path raw))), w)
    end.
Proof.
  unfold try_except, bind, read_file, ret, raise.
  by destruct (fs w !! norm_path raw).
Qed.

(** The second step, when it goes through. *)
Lemma append_to_makelog {E : Env} (mk out : string) (w : World) :
  (mk <> "" -> makelog_started w = true /\ is_Some (fs w !! mk)) ->
  when (truthy mk)
    (started <- get_makelog_started ;;
     isfile <- os_path_isfile mk ;;
     if negb (started && isfile)
     then raise (CritError (fmt crit_error_no_makelog mk))
     else (open_a mk ;; write mk out)) w
  = (Ok tt, set_fs (fun files => if truthy mk then appended mk out files else files) w).
Proof.
  intros Hpre. unfold when. destruct (truthy mk) eqn:Hmk.
  - apply truthy_true in Hmk. destruct (Hpre Hmk) as [Hstarted Hfile].
    step.
    step.
    rewrite Hstarted, bool_decide_eq_true_2 by exact Hfile. simpl.
    apply open_a_write.
  - by destruct w.
Qed.

Lemma move_program_output_run {E : Env} (self : ProgramDirective)
    (program_output log_file : string) (w : World) (out : string) :
  fs w !! norm_path program_output = Some out ->
  (makelog (directive self) <> "" ->
   makelog_started w = true /\ is_Some (fs w !! makelog (directive self))) ->
  move_program_output self program_output log_file w
  = (Ok tt,
     set_fs (relocated (makelog (directive self)) (norm_path program_output)
               log_file out) w).
Proof.
  intros Hout Hpre. unfold move_program_output. cbv zeta.
  erewrite bind_ok; [|by rewrite read_program_output, Hout].
  cbv beta iota zeta.
  erewrite bind_ok; [|by apply append_to_makelog].
  set (mk := makelog (directive self)) in *.
  set (p := norm_path program_output) in *.
  set (w1 := set_fs _ w).
  assert (Hp : is_Some (fs w1 !! p)).
  { simpl. destruct (truthy mk); [apply appended_is_Some|]; rewrite Hout; eauto. }
  unfold relocated, when. destruct (truthy log_file).
  - destruct (String.eqb_spec p log_file) as [Heq|Hne]; simpl.
    + reflexivity.
    + destruct Hp as [c Hc].
      erewrite bind_ok; [|by eapply shutil_copy2_ok].
      rewrite os_remove_ok; [reflexivity|].
      apply copied_lookup_src. rewrite Hc. eauto.
  - by rewrite os_remove_ok.
Qed.

(** C4.  The code departs from the claim when the destination log is the
    output path as it was passed.  For the output [analysis.log], passed
    also as the destination, the method compares the normalized output path
    with the destination as passed and finds them different: with the output
    already at the end of the makelog, it goes on as for a destination that
    differs, to [shutil.copy2] of the file, here onto itself, and
    [os.remove]. *)
Theorem move_program_output_same_path_twice :
  String.eqb (norm_path (Env := Sample.env) "analysis.log") "analysis.log" = false /\
  exists w1,
    fs w1 !! "/work/log/make.log"
    = Some (("Makelog started" +:+ newline) +:+ ". display 1" +:+ newline +:+ "1") /\
    move_program_output (E := Sample.env) Sample_inputs.stata_directive
      "analysis.log" "analysis.log" Sample_inputs.stata_world
    = (shutil_copy2 "/work/analysis.log" "analysis.log" ;;
       os_remove "/work/analysis.log") w1.
Proof.
  split; [reflexivity|].
  exists (set_fs (appended "/work/log/make.log" (". display 1" +:+ newline +:+ "1"))
            Sample_inputs.stata_world).
  split; [reflexivity|].
  unfold move_program_output. cbv zeta.
  erewrite bind_ok; [|by rewrite read_program_output].
  cbv beta iota zeta.
  erewrite bind_ok; [reflexivity|].
  apply (append_to_makelog (E := Sample.env)).
  intros _. split; [reflexivity|]. eexists. reflexivity.
Qed.

(** C10.  When [move_program_output] finds a readable program output but a
    makelog that is set and has not been started or does not exist, it raises
    the configuration error and leaves the world as it found it: the program
    output is still there as it was, no copy has been written and the
    makelog is unchanged. *)
Theorem move_program_output_not_started {E : Env} (self : ProgramDirective)
    (program_output log_file : string) (w : World) (out : string) :
  let mk := makelog (directive self) in
  fs w !! norm_path program_output = Some out ->
  mk <> "" ->
  makelog_started w = false \/ fs w !! mk = None ->
  move_program_output self program_output log_file w
  = (Raise (CritError (fmt crit_error_no_makelog mk)), w).
Proof.
  intros mk Hout Hmk%truthy_true Hpre.
  unfold move_program_output. cbv zeta.
  erewrite bind_ok; [|by rewrite read_program_output, Hout].
  cbv beta iota zeta. fold mk.
  apply bind_raise. unfold when. rewrite Hmk.
  step.
  step.
  destruct Hpre as [-> | ->]; [reflexivity|].
  rewrite bool_decide_eq_false_2 by (intros [? ?]; discriminate).
  by rewrite andb_false_r.
Qed.

Lemma move_program_output_not_started_witness :
  move_program_output (E := Sample.env) Sample_inputs.stata_directive
    "analysis.log" "/work/log/stata.log" Sample_inputs.stata_unstarted_world
  = (Raise (CritError "ERROR! Makelog `/work/log/make.log` not found"),
     Sample_inputs.stata_unstarted_world).
Proof.
  apply (move_program_output_not_started (E := Sample.env)
           Sample_inputs.stata_directive "analysis.log" "/work/log/stata.log"
           Sample_inputs.stata_unstarted_world (". display 1" +:+ newline +:+ "1")).
  - reflexivity.
  - discriminate.
  - left. reflexivity.
Defined.

(** ** Construction *)

Lemma Directive_init_run {E : Env} (makelog osname : string) (shell : bool)
    (log : string) (w : World) :
  osname = "posix" \/ osname = "nt" ->
  Directive_init makelog osname shell log w
  = (Ok (get_paths {| makelog := makelog; osname := osname; shell := shell;
                      log := log; output := None |}), w).
Proof.
  intros Hos. unfold Directive_init, check_os. simpl.
  by destruct Hos as [-> | ->].
Qed.

Lemma Directive_init_unknown {E : Env} (makelog osname : string) (shell : bool)
    (log : string) (w : World) :
  osname <> "posix" -> osname <> "nt" ->
  Directive_init makelog osname shell log w
  = (Raise (CritError (fmt crit_error_unknown_system osname)), w).
Proof.
  intros Hp%String.eqb_neq Hn%String.eqb_neq.
  unfold Directive_init, check_os. simpl. by rewrite Hp, Hn.
Qed.

Lemma parsed_program {E : Env} (app prog exe opt arg : string) (kw : kwargs) :
  program (parsed app prog exe opt arg kw) = norm_path prog.
Proof. unfold parsed, parse_program. simpl. by destruct (os_path_splitext _). Qed.

Lemma parsed_program_ext {E : Env} (app prog exe opt arg : string) (kw : kwargs) :
  program_ext (parsed app prog exe opt arg kw)
  = snd (os_path_splitext (os_path_basename (norm_path prog))).
Proof. unfold parsed, parse_program. simpl. by destruct (os_path_splitext _). Qed.

Lemma parsed_application {E : Env} (app prog exe opt arg : string) (kw : kwargs) :
  application (parsed app prog exe opt arg kw) = app.
Proof. unfold parsed, parse_program. simpl. by destruct (os_path_splitext _). Qed.

(** Construction up to [check_program]. *)
Lemma ProgramDirective_init_checks {E : Env} (app prog exe opt arg : string)
    (kw : kwargs) (w : World) :
  kw_osname kw = "posix" \/ kw_osname kw = "nt" ->
  ProgramDirective_init app prog exe opt arg kw w
  = (check_program (parsed app prog exe opt arg kw) ;;
     self <- get_executable (parsed app prog exe opt arg kw) ;;
     self <- get_option self ;;
     ret self) w.
Proof.
  intros Hos. unfold ProgramDirective_init.
  erewrite bind_ok by (by apply Directive_init_run). reflexivity.
Qed.

Lemma check_program_missing {E : Env} (self : ProgramDirective) (w : World) :
  fs w !! program self = None ->
  check_program self w
  = (Raise (CritError (fmt crit_error_no_file (program self))), w).
Proof.
  intros Hnone. unfold check_program.
  step.
  apply bind_raise. rewrite Hnone.
  by rewrite bool_decide_eq_false_2 by (intros [? ?]; discriminate).
Qed.

Lemma check_program_present {E : Env} (self : ProgramDirective) (w : World) :
  is_Some (fs w !! program self) ->
  check_program self w
  = (ext <- getitem extensions (application self) ;;
     when (negb (String.eqb (program_ext self) ext))
       (raise (CritError (fmt crit_error_extension (program self))))) w.
Proof.
  intros Hsome. unfold check_program.
  step.
  rewrite bool_decide_eq_true_2 by exact Hsome.
  by erewrite bind_ok by reflexivity.
Qed.

(** C5.  Construction of a program directive goes through the
    construction of the directive, the decomposition of [program], the check
    that the program exists, the check of its extension against the one
    [metadata.extensions] declares for the application, and only then the
    defaults of [executable] and [option]: an unknown system is reported
    first, a missing program next (whatever the tables hold for the
    application), a wrong extension after that, and when all checks pass the
    object is the decomposed one with the defaults filled in. *)
Theorem ProgramDirective_init_order {E : Env} (app prog exe opt arg : string)
    (kw : kwargs) (w : World) :
  let self := parsed app prog exe opt arg kw in
  let known := kw_osname kw = "posix" \/ kw_osname kw = "nt" in
  (kw_osname kw <> "posix" -> kw_osname kw <> "nt" ->
   ProgramDirective_init app prog exe opt arg kw w
   = (Raise (CritError (fmt crit_error_unknown_system (kw_osname kw))), w)) /\
  (known -> fs w !! norm_path prog = None ->
   ProgramDirective_init app prog exe opt arg kw w
   = (Raise (CritError (fmt crit_error_no_file (norm_path prog))), w)) /\
  (known -> is_Some (fs w !! norm_path prog) ->
   extensions !! app = None ->
   ProgramDirective_init app prog exe opt arg kw w = (Raise (KeyError app), w)) /\
  (forall declared,
     known -> is_Some (fs w !! norm_path prog) ->
     extensions !! app = Some declared ->
     program_ext self <> declared ->
     ProgramDirective_init app prog exe opt arg kw w
     = (Raise (CritError (fmt crit_error_extension (norm_path prog))), w)) /\
  (forall declared,
     known -> is_Some (fs w !! norm_path prog) ->
     extensions !! app = Some declared ->
     program_ext self = declared ->
     ProgramDirective_init app prog exe opt arg kw w
     = (self <- get_executable self ;; self <- get_option self ;; ret self) w).
Proof.
  intros self known. repeat split.
  - intros Hp Hn. unfold ProgramDirective_init.
    apply bind_raise. by apply Directive_init_unknown.
  - intros Hos Hnone. rewrite ProgramDirective_init_checks by exact Hos.
    apply bind_raise. rewrite <- (parsed_program app prog exe opt arg kw).
    apply check_program_missing. by rewrite parsed_program.
  - intros Hos Hsome Hext. rewrite ProgramDirective_init_checks by exact Hos.
    apply bind_raise. rewrite check_program_present by (by rewrite parsed_program).
    apply bind_raise. unfold getitem. by rewrite parsed_application, Hext.
  - intros declared Hos Hsome Hext Hne.
    rewrite ProgramDirective_init_checks by exact Hos.
    apply bind_raise. rewrite check_program_present by (by rewrite parsed_program).
    erewrite bind_ok
      by (unfold getitem; rewrite parsed_application, Hext; reflexivity).
    fold self. apply String.eqb_neq in Hne. rewrite Hne. simpl.
    unfold self. by rewrite parsed_program.
  - intros declared Hos Hsome Hext Heq.
    rewrite ProgramDirective_init_checks by exact Hos.
    erewrite bind_ok; [reflexivity|].
    rewrite check_program_present by (by rewrite parsed_program).
    erewrite bind_ok
      by (unfold getitem; rewrite parsed_application, Hext; reflexivity).
    fold self. apply String.eqb_eq in Heq. by rewrite Heq.
Qed.

Lemma ProgramDirective_init_order_witness :
  ProgramDirective_init (E := Sample.env) "python" "code/missing.py" "" "" ""
    Sample.posix Sample_inputs.stata_world
  = (Raise (CritError "ERROR! File `/work/code/missing.py` not found"),
     Sample_inputs.stata_world) /\
  ProgramDirective_init (E := Sample.env) "lyx" "code/analysis.do" "" "" ""
    Sample.posix Sample_inputs.stata_world
  = (Raise (CritError "ERROR! File `/work/code/analysis.do` has the wrong extension"),
     Sample_inputs.stata_world) /\
  ProgramDirective_init (E := Sample.env) "stata" "code/analysis.do" "" "" ""
    Sample.posix Sample_inputs.stata_world
  = (Ok Sample_inputs.stata_directive, Sample_inputs.stata_world).
Proof.
  split; [|split].
  - apply (ProgramDirective_init_order (E := Sample.env)
             "python" "code/missing.py" "" "" "" Sample.posix
             Sample_inputs.stata_world).
    + left. reflexivity.
    + reflexivity.
  - apply (ProgramDirective_init_order (E := Sample.env)
             "lyx" "code/analysis.do" "" "" "" Sample.posix
             Sample_inputs.stata_world) with (declared := ".lyx").
    + left. reflexivity.
    + eexists. reflexivity.
    + reflexivity.
    + discriminate.
  - etrans.
    + apply (ProgramDirective_init_order (E := Sample.env)
               "stata" "code/analysis.do" "" "" "" Sample.posix
               Sample_inputs.stata_world) with (declared := ".do").
      * left. reflexivity.
      * eexists. reflexivity.
      * reflexivity.
      * reflexivity.
    + reflexivity.
Defined.

(** ** LyxDirective *)

Lemma check_doctype_known {E : Env} (self : LyxDirective) (w : World) :
  doctype self ∈ ["handout"; "comments"; ""] ->
  check_doctype self w = (Ok self, w).
Proof.
  intros Hin. unfold check_doctype.
  by rewrite bool_decide_eq_true_2 by exact Hin.
Qed.

Lemma check_doctype_unknown {E : Env} (self : LyxDirective) (w : World) :
  doctype self ∉ ["handout"; "comments"; ""] ->
  check_doctype self w
  = (Ok {| program_directive := program_directive self;
           doctype := ""; pdfout := pdfout self |},
     snd (print (fmt doctype_unrecognized (doctype self)) w)).
Proof.
  intros Hin. unfold check_doctype.
  by rewrite bool_decide_eq_false_2 by exact Hin.
Qed.

(** C8, amended.  For every Lyx directive constructed with the document
    type [handout] or [comments], the PDF output directory is the temp
    directory of [metadata.settings], normalized, whatever directory was
    passed for it. *)
Theorem LyxDirective_pdfout_temp {E : Env} (dtype pdf app prog exe opt arg : string)
    (kw : kwargs) (w w' : World) (pd : ProgramDirective) (temp_dir : string) :
  dtype = "handout" \/ dtype = "comments" ->
  ProgramDirective_init app prog exe opt arg kw w = (Ok pd, w') ->
  settings !! "temp_dir" = Some temp_dir ->
  LyxDirective_init dtype pdf app prog exe opt arg kw w
  = (Ok {| program_directive := pd; doctype := dtype;
           pdfout := norm_path temp_dir |}, w').
Proof.
  intros Hdt Hpd Htemp. unfold LyxDirective_init.
  erewrite bind_ok by exact Hpd.
  erewrite bind_ok; cycle 1.
  { apply check_doctype_known. simpl. rewrite !elem_of_cons.
    destruct Hdt as [-> | ->]; auto. }
  unfold get_pdfout. simpl doctype.
  assert (Htruthy : truthy dtype = true) by (by destruct Hdt as [-> | ->]).
  rewrite Htruthy. unfold getitem. rewrite Htemp. reflexivity.
Qed.

(** C8 as stated fails for a document type that is not empty and not a
    known one: [check_doctype] resets it before [get_pdfout] looks at it, and
    the directory that was passed is kept. *)
Lemma LyxDirective_pdfout_kept :
  exists self w',
    LyxDirective_init (E := Sample.env) "bogus" "/my/pdfs"
      "lyx" "paper.lyx" "" "" "" Sample.posix Sample_inputs.lyx_world
    = (Ok self, w') /\
    Sample.settings !! "temp_dir" = Some "../temp" /\
    pdfout self = "/my/pdfs" /\
    pdfout self <> Sample.norm_path "../temp".
Proof.
  do 2 eexists. split; [vm_compute; reflexivity|].
  split; [reflexivity|]. split; [reflexivity|]. discriminate.
Qed.

Lemma LyxDirective_pdfout_temp_witness :
  LyxDirective_init (E := Sample.env) "handout" "/my/pdfs"
    "lyx" "paper.lyx" "" "" "" Sample.posix Sample_inputs.lyx_world
  = (Ok {| program_directive := Sample_inputs.lyx_program; doctype := "handout";
           pdfout := "/work/../temp" |}, Sample_inputs.lyx_world).
Proof.
  apply (LyxDirective_pdfout_temp (E := Sample.env) "handout" "/my/pdfs"
           "lyx" "paper.lyx" "" "" "" Sample.posix Sample_inputs.lyx_world
           Sample_inputs.lyx_world Sample_inputs.lyx_program "../temp").
  - left. reflexivity.
  - reflexivity.
  - reflexivity.
Defined.

(** C9.  For every Lyx directive constructed with a document type that is
    not [handout], not [comments] and not empty, the document type does not
    make construction fail: once the program directive is constructed, a
    warning is printed and the document type is reset to the empty string. *)
Theorem LyxDirective_unknown_doctype {E : Env} (dtype pdf app prog exe opt arg : string)
    (kw : kwargs) (w w' : World) (pd : ProgramDirective) :
  dtype <> "handout" -> dtype <> "comments" -> dtype <> "" ->
  ProgramDirective_init app prog exe opt arg kw w = (Ok pd, w') ->
  exists self,
    LyxDirective_init dtype pdf app prog exe opt arg kw w
    = (Ok self, snd (print (fmt doctype_unrecognized dtype) w')) /\
    doctype self = "" /\
    program_directive self = pd /\
    pdfout self = norm_path pdf /\
    stdout (snd (print (fmt doctype_unrecognized dtype) w'))
    = (stdout w' ++ [fmt doctype_unrecognized dtype])%list.
Proof.
  intros Hh Hc He Hpd.
  exists {| program_directive := pd; doctype := ""; pdfout := norm_path pdf |}.
  split; [|done].
  unfold LyxDirective_init.
  erewrite bind_ok by exact Hpd.
  erewrite bind_ok; cycle 1.
  { apply check_doctype_unknown. simpl.
    rewrite !not_elem_of_cons. auto using not_elem_of_nil. }
  reflexivity.
Qed.

Lemma LyxDirective_unknown_doctype_witness :
  exists self,
    LyxDirective_init (E := Sample.env) "bogus" "/my/pdfs"
      "lyx" "paper.lyx" "" "" "" Sample.posix Sample_inputs.lyx_world
    = (Ok self,
       snd (print ("Document type " +:+ dquote +:+ "bogus" +:+ dquote
                   +:+ " unrecognized. Reverting to default")
              Sample_inputs.lyx_world)) /\
    doctype self = "".
Proof.
  destruct (LyxDirective_unknown_doctype (E := Sample.env) "bogus" "/my/pdfs"
              "lyx" "paper.lyx" "" "" "" Sample.posix Sample_inputs.lyx_world
              Sample_inputs.lyx_world Sample_inputs.lyx_program)
    as (self & Hrun & Hdt & _).
  - discriminate.
  - discriminate.
  - discriminate.
  - reflexivity.
  - exists self. split; [exact Hrun | exact Hdt].
Defined.

(** * Further properties *)

(** ** Tokens *)

Lemma no_space_app (a b : string) : no_space (a +:+ b) = no_space a && no_space b.
Proof.
  induction a as [|c a IH]; [reflexivity|].
  rewrite app_cons. simpl. rewrite IH. by rewrite andb_assoc.
Qed.

Lemma app_not_empty_r (a : string) (c : ascii) : a +:+ String c "" <> "".
Proof. by destruct a. Qed.

Lemma split_from_tokens (s : string) :
  forall tok : option string,
    (forall t, tok = Some t -> token t) ->
    Forall token (split_from tok s).
Proof.
  induction s as [|c s IH]; intros tok Htok; simpl.
  - destruct tok as [t|]; [|constructor].
    constructor; [by apply Htok | constructor].
  - destruct (isspace c) eqn:Hc.
    + destruct tok as [t|].
      * constructor; [by apply Htok|]. apply IH. discriminate.
      * apply IH. discriminate.
    + apply IH. intros t [= <-]. split; [apply app_not_empty_r|].
      rewrite no_space_app. simpl. rewrite Hc. simpl. rewrite andb_true_r.
      destruct tok as [t|]; [|reflexivity]. by destruct (Htok t eq_refl).
Qed.

(** Reading a string without white space extends the token being read. *)
Lemma split_from_word (t : string) :
  forall (tok : option string) (rest : string),
    no_space t = true -> t <> "" ->
    split_from tok (t +:+ rest) = split_from (Some (default "" tok +:+ t)) rest.
Proof.
  induction t as [|c t IH]; intros tok rest Hns Hne; [done|].
  simpl in Hns. apply andb_true_iff in Hns as [Hc%negb_true_iff Hns].
  rewrite app_cons. simpl. rewrite Hc.
  destruct t as [|c' t].
  - reflexivity.
  - rewrite IH by done. simpl default. by rewrite app_assoc.
Qed.

Lemma split_join (l : list string) :
  Forall token l -> split (join " " l) = l.
Proof.
  unfold split, join. induction l as [|t l IH]; intros Hl; [reflexivity|].
  apply Forall_cons in Hl as [[Hne Hns] Hl].
  destruct l as [|t' l].
  - simpl. rewrite <- (app_nil_r t) at 1.
    by rewrite split_from_word.
  - change (String.concat " " (t :: t' :: l))
      with (t +:+ " " +:+ String.concat " " (t' :: l)).
    rewrite split_from_word by done.
    rewrite app_cons, app_nil_l. simpl split_from at 1.
    f_equal. by apply IH.
Qed.

(** X1.  The command that the diagnostic of [execute_command] names, the
    tokens joined by single spaces, splits into the tokens that were handed
    to the spawning primitive. *)
Theorem split_join_split (command : string) :
  split (join " " (split command)) = split command.
Proof.
  apply split_join. apply split_from_tokens. discriminate.
Qed.

(** X2.  [execute_command] spawns one child, and none of the arguments it
    hands over is empty or holds white space: an argument written with a
    space inside, quoted or not, reaches the child in pieces. *)
Theorem execute_command_arguments {E : Env} (self : Directive)
    (command : string) (w : World) :
  exists argv,
    spawned (snd (execute_command self command w))
    = (spawned w ++ [(ArgList argv, shell self)])%list /\
    Forall token argv.
Proof.
  exists (split command). split.
  - by rewrite execute_command_run.
  - apply split_from_tokens. discriminate.
Qed.

(** ** More on execute_command *)

(** X3.  [execute_command] starts [output] afresh: what an earlier command
    left in it has no part in the outcome. *)
Theorem execute_command_forgets_output {E : Env} (self : Directive)
    (earlier command : string) (w : World) :
  execute_command (set_output earlier self) command w
  = execute_command self command w.
Proof.
  by rewrite !execute_command_run.
Qed.

(** X4.  [execute_command] changes nothing of the directive but [output],
    which starts with the banner; it prints the banner and nothing else,
    leaves the makelog-started flag alone, and the files after it are the
    files the child leaves: the method itself writes no log. *)
Theorem execute_command_frame {E : Env} (self : Directive)
    (command : string) (w : World) :
  exists exit self' w' rest,
    execute_command self command w = (Ok (exit, self'), w') /\
    makelog self' = makelog self /\
    osname self' = osname self /\
    shell self' = shell self /\
    log self' = log self /\
    output self' = Some (fmt executing command +:+ rest) /\
    stdout w' = (stdout w ++ [fmt executing command])%list /\
    makelog_started w' = makelog_started w /\
    fs w' = snd (run_child (ArgList (split command)) (shell self) (fs w)).
Proof.
  rewrite execute_command_run.
  do 3 eexists. eexists (snd (report command _)).
  by repeat split.
Qed.



(** ** More on construction of a directive *)

Lemma constructed_get_paths {E : Env} (mk os : string) (sh : bool) (lg : string) :
  get_paths {| makelog := mk; osname := os; shell := sh; log := lg; output := None |}
  = constructed mk os sh lg.
Proof.
  unfold get_paths, constructed. simpl. f_equal.
  by destruct (String.eqb_spec lg "") as [->|_].
Qed.

(** X6.  Constructing a directive succeeds for the systems [posix] and [nt]
    and for no other: there it gives a directive with the makelog path
    normalized, the path of its own log normalized unless it is empty, and no
    [output] yet; for any other name it raises the error that names the
    system.  Either way the world is left as it was. *)
Theorem Directive_init_outcome {E : Env} (mk os : string) (sh : bool)
    (lg : string) (w : World) :
  Directive_init mk os sh lg w
  = (if bool_decide (os ∈ ["posix"; "nt"])
     then Ok (constructed mk os sh lg)
     else Raise (CritError (fmt crit_error_unknown_system os)), w).
Proof.
  case_bool_decide as Hos.
  - rewrite Directive_init_run, constructed_get_paths; [done|].
    by rewrite !elem_of_cons, elem_of_nil in Hos; destruct Hos as [?|[?|[]]]; auto.
  - rewrite !not_elem_of_cons in Hos. destruct Hos as (Hp & Hn & _).
    by apply Directive_init_unknown.
Qed.

(** ** More on write_log *)

(** X8.  [write_log] on a directive that has run no command yet raises
    [AttributeError]: there is no [output] to write.  With a makelog that is
    started and exists, this happens once the makelog has been opened for
    appending, so that no file has changed and the directive's own log has
    not been opened. *)
Theorem write_log_before_execute {E : Env} (self : Directive) (w : World) :
  makelog self <> "" ->
  makelog_started w = true ->
  is_Some (fs w !! makelog self) ->
  output self = None ->
  exists w',
    write_log self w = (Raise (AttributeError "output"), w') /\
    fs w' = fs w.
Proof.
  intros Hmk%truthy_true Hstarted [old Hold] Hout.
  unfold write_log, when. rewrite Hmk.
  eexists. split.
  - apply bind_raise. step. step.
    rewrite Hstarted, bool_decide_eq_true_2 by eauto. simpl.
    unfold write_output. rewrite Hout.
    step. reflexivity.
  - simpl. rewrite Hold. by apply insert_id.
Qed.

Lemma write_log_before_execute_witness :
  exists w',
    write_log (E := Sample.env) More_inputs.fresh_directive
      Sample_inputs.started_world = (Raise (AttributeError "output"), w') /\
    fs w' = fs Sample_inputs.started_world.
Proof.
  apply (write_log_before_execute (E := Sample.env) More_inputs.fresh_directive
           Sample_inputs.started_world).
  - discriminate.
  - reflexivity.
  - eexists. reflexivity.
  - reflexivity.
Defined.

(** X9.  When the directive's own log is the makelog, [write_log] leaves
    that file holding exactly [output], whatever it held, and touches no
    other file. *)
Theorem write_log_on_makelog {E : Env} (self : Directive) (w : World)
    (o : string) :
  makelog self <> "" ->
  makelog_started w = true ->
  is_Some (fs w !! makelog self) ->
  output self = Some o ->
  log self = makelog self ->
  exists w',
    write_log self w = (Ok tt, w') /\
    fs w' = <[makelog self := o]> (fs w).
Proof.
  intros Hmk Hstarted Hfile Hout Hlog.
  exists (set_fs (logged self o) w).
  split; [by apply write_log_run|].
  simpl. unfold logged. rewrite Hlog.
  apply truthy_true in Hmk. rewrite Hmk.
  unfold overwritten, appended. apply insert_insert_eq.
Qed.

Lemma write_log_on_makelog_witness :
  exists w',
    write_log (E := Sample.env) Sample_inputs.aliased_directive
      Sample_inputs.started_world = (Ok tt, w') /\
    fs w' = <[ "/work/log/make.log" := "Executing: echo hi" +:+ newline +:+ "hi" ]>
              (fs Sample_inputs.started_world).
Proof.
  apply (write_log_on_makelog (E := Sample.env) Sample_inputs.aliased_directive
           Sample_inputs.started_world).
  - discriminate.
  - reflexivity.
  - eexists. reflexivity.
  - reflexivity.
  - reflexivity.
Defined.

(** X20.  With a makelog that is started and exists and no log of its
    own, [n] calls of [write_log] in a row all go through and leave the
    makelog holding what it held followed by [n] copies of [output]; no other
    file changes. *)
Theorem write_log_grows {E : Env} (self : Directive) (o : string) (n : nat)
    (w : World) (old : string) :
  makelog self <> "" ->
  log self = "" ->
  output self = Some o ->
  makelog_started w = true ->
  fs w !! makelog self = Some old ->
  exists w',
    write_log_times n self w = (Ok tt, w') /\
    makelog_started w' = true /\
    fs w' = <[makelog self := old +:+ repeated n o]> (fs w).
Proof.
  intros Hmk Hlog Hout. revert w old.
  induction n as [|n IH]; intros w old Hstarted Hold.
  - exists w. change (repeated 0 o) with "". rewrite app_nil_r.
    split; [done|]. split; [done|]. symmetry. by apply insert_id.
  - change (repeated (S n) o) with (o +:+ repeated n o).
    change (write_log_times (S n) self) with (write_log self ;; write_log_times n self).
    erewrite bind_ok; [|apply write_log_run; eauto].
    assert (Hfs : fs (set_fs (logged self o) w)
                  = <[makelog self := old +:+ o]> (fs w)).
    { simpl. unfold logged, appended. by rewrite Hlog, Hold. }
    destruct (IH (set_fs (logged self o) w) (old +:+ o)) as (w' & Hrun & Hs & Hl).
    + exact Hstarted.
    + rewrite Hfs. apply lookup_insert_eq.
    + exists w'. split; [exact Hrun|]. split; [exact Hs|].
      by rewrite Hl, Hfs, insert_insert_eq, app_assoc.
Qed.

Lemma write_log_grows_witness :
  exists w',
    write_log_times (E := Sample.env) 2 More_inputs.logged_directive
      Sample_inputs.started_world = (Ok tt, w') /\
    fs w' !! "/work/log/make.log"
    = Some (("Makelog started" +:+ newline)
            +:+ ("Executing: echo hi" +:+ newline +:+ "hi")
            +:+ ("Executing: echo hi" +:+ newline +:+ "hi")).
Proof.
  destruct (write_log_grows (E := Sample.env) More_inputs.logged_directive
              ("Executing: echo hi" +:+ newline +:+ "hi") 2
              Sample_inputs.started_world ("Makelog started" +:+ newline))
    as (w' & Hrun & _ & Hfs).
  - discriminate.
  - reflexivity.
  - reflexivity.
  - reflexivity.
  - reflexivity.
  - exists w'. split; [exact Hrun|]. rewrite Hfs.
    rewrite lookup_insert_eq. reflexivity.
Defined.

(** ** More on move_program_output *)

(** X10.  When the program output cannot be read, [move_program_output]
    raises the file-not-found error, which names the normalized path, and
    leaves the world as it found it, a makelog that is ready included:
    nothing is appended, copied or deleted. *)
Theorem move_program_output_unreadable {E : Env} (self : ProgramDirective)
    (program_output log_file : string) (w : World) :
  fs w !! norm_path program_output = None ->
  move_program_output self program_output log_file w
  = (Raise (CritError (fmt crit_error_no_file (norm_path program_output))), w).
Proof.
  intros Hnone. unfold move_program_output. cbv zeta.
  apply bind_raise. by rewrite read_program_output, Hnone.
Qed.

Lemma move_program_output_unreadable_witness :
  move_program_output (E := Sample.env) Sample_inputs.stata_directive
    "missing.log" "/work/log/stata.log" Sample_inputs.stata_world
  = (Raise (CritError "ERROR! File `/work/missing.log` not found"),
     Sample_inputs.stata_world).
Proof.
  apply (move_program_output_unreadable (E := Sample.env)
           Sample_inputs.stata_directive "missing.log" "/work/log/stata.log"
           Sample_inputs.stata_world).
  reflexivity.
Defined.

(** ** More on construction of a program directive *)

Lemma reads_only_ret {A} (a : A) : reads_only (ret a).
Proof. by intros w. Qed.

Lemma reads_only_raise {A} (e : exn) : reads_only (raise (A := A) e).
Proof. by intros w. Qed.

Lemma reads_only_bind {A B} (m : M A) (k : A -> M B) :
  reads_only m -> (forall a, reads_only (k a)) -> reads_only (bind m k).
Proof.
  intros Hm Hk w. unfold bind. specialize (Hm w).
  destruct (m w) as [[a|e] w1]; simpl in Hm; subst w1; [apply Hk | done].
Qed.

Lemma reads_only_when (b : bool) (m : M unit) : reads_only m -> reads_only (when b m).
Proof. destruct b; [done | intros _; apply reads_only_ret]. Qed.

Lemma reads_only_getitem (d : gmap string string) (k : string) :
  reads_only (getitem d k).
Proof. unfold getitem. destruct (d !! k); [apply reads_only_ret | apply reads_only_raise]. Qed.

Lemma reads_only_getitem2 (d : gmap string (gmap string string)) (k1 k2 : string) :
  reads_only (getitem2 d k1 k2).
Proof.
  unfold getitem2. destruct (d !! k1); [apply reads_only_getitem | apply reads_only_raise].
Qed.

Lemma reads_only_isfile (p : string) : reads_only (os_path_isfile p).
Proof. by intros w. Qed.

Create HintDb reads_only.
#[local] Hint Resolve reads_only_ret reads_only_raise reads_only_when
  reads_only_getitem reads_only_getitem2 reads_only_isfile : reads_only.
#[local] Hint Extern 2 (reads_only (bind _ _)) =>
  apply reads_only_bind; [|intros ?] : reads_only.

Lemma reads_only_Directive_init {E : Env} (mk os : string) (sh : bool) (lg : string) :
  reads_only (Directive_init mk os sh lg).
Proof.
  unfold Directive_init, check_os.
  destruct (_ && _); auto with reads_only.
Qed.

Lemma reads_only_check_program {E : Env} (self : ProgramDirective) :
  reads_only (check_program self).
Proof. unfold check_program. auto 8 with reads_only. Qed.

Lemma reads_only_get_executable {E : Env} (self : ProgramDirective) :
  reads_only (get_executable self).
Proof. unfold get_executable. destruct (negb _); auto with reads_only. Qed.

Lemma reads_only_get_option {E : Env} (self : ProgramDirective) :
  reads_only (get_option self).
Proof. unfold get_option. destruct (negb _); auto with reads_only. Qed.

#[local] Hint Resolve reads_only_Directive_init reads_only_check_program
  reads_only_get_executable reads_only_get_option : reads_only.

(** X12.  Constructing a program directive only looks: whether it succeeds
    or raises, and whatever it raises, no file is created, changed or
    deleted, nothing is printed and no child is spawned. *)
Theorem ProgramDirective_init_reads_only {E : Env} (app prog exe opt arg : string)
    (kw : kwargs) :
  reads_only (ProgramDirective_init app prog exe opt arg kw).
Proof. unfold ProgramDirective_init. auto 10 with reads_only. Qed.

Lemma set_executable_same (self : ProgramDirective) :
  set_executable (executable self) self = self.
Proof. by destruct self. Qed.

Lemma set_option_same (self : ProgramDirective) :
  set_option (option_ self) self = self.
Proof. by destruct self. Qed.

Lemma get_executable_run {E : Env} (self : ProgramDirective) (w : World) :
  get_executable self w
  = match defaulted (executable self) default_executables
            (osname (directive self)) (application self) with
    | Some e => (Ok (set_executable e self), w)
    | None => (Raise (KeyError (missing_key default_executables
                                  (osname (directive self)) (application self))), w)
    end.
Proof.
  unfold get_executable, defaulted. destruct (truthy (executable self)); simpl.
  - by rewrite set_executable_same.
  - unfold getitem2, lookup2, missing_key, getitem, bind.
    destruct (default_executables !! _) as [d1|]; [|done].
    by destruct (d1 !! _).
Qed.

Lemma get_option_run {E : Env} (self : ProgramDirective) (w : World) :
  get_option self w
  = match defaulted (option_ self) default_options
            (osname (directive self)) (application self) with
    | Some o => (Ok (set_option o self), w)
    | None => (Raise (KeyError (missing_key default_options
                                  (osname (directive self)) (application self))), w)
    end.
Proof.
  unfold get_option, defaulted. destruct (truthy (option_ self)); simpl.
  - by rewrite set_option_same.
  - unfold getitem2, lookup2, missing_key, getitem, bind.
    destruct (default_options !! _) as [d1|]; [|done].
    by destruct (d1 !! _).
Qed.

Lemma parsed_fields {E : Env} (app prog exe opt arg : string) (kw : kwargs) :
  let self := parsed app prog exe opt arg kw in
  directive self = constructed (kw_makelog kw) (kw_osname kw) (kw_shell kw) (kw_log kw) /\
  executable self = exe /\ option_ self = opt /\ args self = arg.
Proof.
  unfold parsed, parse_program. simpl. destruct (os_path_splitext _). simpl.
  by rewrite constructed_get_paths.
Qed.

(** Construction once the checks have passed. *)
Lemma ProgramDirective_init_checked {E : Env} (app prog exe opt arg : string)
    (kw : kwargs) (w : World) :
  let self := parsed app prog exe opt arg kw in
  kw_osname kw = "posix" \/ kw_osname kw = "nt" ->
  is_Some (fs w !! norm_path prog) ->
  extensions !! app = Some (program_ext self) ->
  ProgramDirective_init app prog exe opt arg kw w
  = (self <- get_executable self ;; self <- get_option self ;; ret self) w.
Proof.
  intros self Hos Hfile Hext.
  rewrite ProgramDirective_init_checks by exact Hos.
  erewrite bind_ok; [reflexivity|].
  rewrite check_program_present by (by rewrite parsed_program).
  erewrite bind_ok
    by (unfold getitem; rewrite parsed_application, Hext; reflexivity).
  fold self. by rewrite String.eqb_refl.
Qed.

(** X13.  Once the checks pass, a program directive carries the executable
    and the option that were passed, and the defaults of [metadata] for the
    system and the application in the place of those passed empty; a table is
    not looked at for an attribute that was passed.  The arguments are
    taken as they are, the program path normalized. *)
Theorem ProgramDirective_init_defaults {E : Env} (app prog exe opt arg : string)
    (kw : kwargs) (w : World) (e o : string) :
  kw_osname kw = "posix" \/ kw_osname kw = "nt" ->
  is_Some (fs w !! norm_path prog) ->
  extensions !! app
  = Some (snd (os_path_splitext (os_path_basename (norm_path prog)))) ->
  defaulted exe default_executables (kw_osname kw) app = Some e ->
  defaulted opt default_options (kw_osname kw) app = Some o ->
  exists self,
    ProgramDirective_init app prog exe opt arg kw w = (Ok self, w) /\
    executable self = e /\
    option_ self = o /\
    args self = arg /\
    application self = app /\
    program self = norm_path prog /\
    directive self
    = constructed (kw_makelog kw) (kw_osname kw) (kw_shell kw) (kw_log kw).
Proof.
  intros Hos Hfile Hext He Ho.
  pose proof (parsed_fields app prog exe opt arg kw) as (Hd & Hexe & Hopt & Harg).
  pose proof (parsed_application app prog exe opt arg kw) as Happ.
  pose proof (parsed_program app prog exe opt arg kw) as Hprog.
  set (self := parsed app prog exe opt arg kw) in *.
  exists (set_option o (set_executable e self)). split; [|by simpl].
  rewrite ProgramDirective_init_checked; [|done|done|by rewrite parsed_program_ext].
  fold self. unfold bind at 1.
  rewrite get_executable_run, Hexe, Hd, Happ. simpl osname. rewrite He.
  unfold bind at 1.
  rewrite get_option_run. simpl. rewrite Hopt, Hd, Happ. simpl osname.
  by rewrite Ho.
Qed.

Lemma ProgramDirective_init_defaults_witness :
  exists self,
    ProgramDirective_init (E := More_inputs.posix_only) "stata" "code/analysis.do"
      "/opt/stata/stata-se" "-b" "nolog" More_inputs.nt Sample_inputs.stata_world
    = (Ok self, Sample_inputs.stata_world) /\
    executable self = "/opt/stata/stata-se" /\
    option_ self = "-b" /\
    lookup2 (default_executables (Env := More_inputs.posix_only)) "nt" "stata" = None.
Proof.
  destruct (ProgramDirective_init_defaults (E := More_inputs.posix_only)
              "stata" "code/analysis.do" "/opt/stata/stata-se" "-b" "nolog"
              More_inputs.nt Sample_inputs.stata_world "/opt/stata/stata-se" "-b")
    as (self & Hrun & Hexe & Hopt & _).
  - right. reflexivity.
  - eexists. reflexivity.
  - reflexivity.
  - reflexivity.
  - reflexivity.
  - exists self. split; [exact Hrun|]. split; [exact Hexe|].
    split; [exact Hopt|]. reflexivity.
Defined.

(** X14.  Passed empty, an executable or an option needs its default: when
    [metadata] has none for the system, construction raises [KeyError] on
    the name of the system, and when it has none for the application, on the
    name of the application.  The executable is looked up first. *)
Theorem ProgramDirective_init_no_default {E : Env} (app prog opt arg : string)
    (kw : kwargs) (w : World) :
  kw_osname kw = "posix" \/ kw_osname kw = "nt" ->
  is_Some (fs w !! norm_path prog) ->
  extensions !! app
  = Some (snd (os_path_splitext (os_path_basename (norm_path prog)))) ->
  (lookup2 default_executables (kw_osname kw) app = None ->
   ProgramDirective_init app prog "" opt arg kw w
   = (Raise (KeyError (missing_key default_executables (kw_osname kw) app)), w)) /\
  (forall exe e,
     defaulted exe default_executables (kw_osname kw) app = Some e ->
     lookup2 default_options (kw_osname kw) app = None ->
     ProgramDirective_init app prog exe "" arg kw w
     = (Raise (KeyError (missing_key default_options (kw_osname kw) app)), w)).
Proof.
  intros Hos Hfile Hext. split.
  - intros Hnone.
    pose proof (parsed_fields app prog "" opt arg kw) as (Hd & Hexe & _).
    pose proof (parsed_application app prog "" opt arg kw) as Happ.
    rewrite ProgramDirective_init_checked; [|done|done|by rewrite parsed_program_ext].
    apply bind_raise.
    rewrite get_executable_run, Hexe, Hd, Happ. simpl osname.
    unfold defaulted. simpl. by rewrite Hnone.
  - intros exe e He Hnone.
    pose proof (parsed_fields app prog exe "" arg kw) as (Hd & Hexe & Hopt & _).
    pose proof (parsed_application app prog exe "" arg kw) as Happ.
    rewrite ProgramDirective_init_checked; [|done|done|by rewrite parsed_program_ext].
    erewrite bind_ok; cycle 1.
    { rewrite get_executable_run, Hexe, Hd, Happ. simpl osname. by rewrite He. }
    apply bind_raise.
    rewrite get_option_run. simpl. rewrite Hopt, Hd, Happ. simpl osname.
    unfold defaulted. simpl. by rewrite Hnone.
Qed.

Lemma ProgramDirective_init_no_default_witness :
  ProgramDirective_init (E := More_inputs.posix_only) "stata" "code/analysis.do"
    "" "" "" More_inputs.nt Sample_inputs.stata_world
  = (Raise (KeyError "nt"), Sample_inputs.stata_world) /\
  ProgramDirective_init (E := More_inputs.posix_only) "lyx" "paper.lyx"
    "" "" "" Sample.posix Sample_inputs.lyx_world
  = (Raise (KeyError "lyx"), Sample_inputs.lyx_world).
Proof.
  split.
  - apply (ProgramDirective_init_no_default (E := More_inputs.posix_only)
             "stata" "code/analysis.do" "" "" More_inputs.nt
             Sample_inputs.stata_world).
    + right. reflexivity.
    + eexists. reflexivity.
    + reflexivity.
    + reflexivity.
  - apply (ProgramDirective_init_no_default (E := More_inputs.posix_only)
             "lyx" "paper.lyx" "" "" Sample.posix Sample_inputs.lyx_world)
      with (e := "lyx").
    + left. reflexivity.
    + eexists. reflexivity.
    + reflexivity.
    + reflexivity.
    + reflexivity.
Defined.

(** X15.  A program directive that has been constructed is one that passed
    the checks: its system is [posix] or [nt], its program, a normalized
    path, named a file when it was constructed, and its extension is the one
    [metadata.extensions] declares for its application. *)
Theorem ProgramDirective_init_invariant {E : Env} (app prog exe opt arg : string)
    (kw : kwargs) (w w' : World) (self : ProgramDirective) :
  ProgramDirective_init app prog exe opt arg kw w = (Ok self, w') ->
  w' = w /\
  (osname (directive self) = "posix" \/ osname (directive self) = "nt") /\
  program self = norm_path prog /\
  is_Some (fs w !! program self) /\
  program_ext self = snd (os_path_splitext (os_path_basename (program self))) /\
  extensions !! application self = Some (program_ext self).
Proof.
  intros Hrun.
  assert (Hw : w' = w).
  { assert (Hro : reads_only (ProgramDirective_init app prog exe opt arg kw)).
    { unfold ProgramDirective_init. auto 10 with reads_only. }
    specialize (Hro w). by rewrite Hrun in Hro. }
  subst w'. split; [done|].
  pose proof (parsed_fields app prog exe opt arg kw) as (Hd & _).
  pose proof (parsed_application app prog exe opt arg kw) as Happ.
  pose proof (parsed_program app prog exe opt arg kw) as Hprog.
  pose proof (parsed_program_ext app prog exe opt arg kw) as Hpext.
  set (self0 := parsed app prog exe opt arg kw) in *.
  destruct (decide (kw_osname kw = "posix" \/ kw_osname kw = "nt")) as [Hos|Hos];
    cycle 1.
  { unfold ProgramDirective_init in Hrun.
    erewrite bind_raise in Hrun; [discriminate|].
    apply Directive_init_unknown; tauto. }
  rewrite ProgramDirective_init_checks in Hrun by exact Hos. fold self0 in Hrun.
  destruct (fs w !! norm_path prog) as [c|] eqn:Hfile; cycle 1.
  { erewrite bind_raise in Hrun; [discriminate|].
    apply check_program_missing. by rewrite Hprog. }
  unfold bind at 1 in Hrun.
  rewrite check_program_present in Hrun by (rewrite Hprog, Hfile; eauto).
  unfold bind at 1, getitem in Hrun. rewrite Happ in Hrun.
  destruct (extensions !! app) as [declared|] eqn:Hext; [|discriminate].
  simpl in Hrun.
  destruct (String.eqb_spec (program_ext self0) declared) as [Heq|Hne];
    [|discriminate].
  simpl in Hrun. unfold bind at 1 in Hrun. rewrite get_executable_run in Hrun.
  destruct (defaulted (executable self0) _ _ _) as [e|]; [|discriminate].
  unfold bind at 1 in Hrun. rewrite get_option_run in Hrun.
  destruct (defaulted (option_ (set_executable e self0)) _ _ _) as [o|];
    [|discriminate].
  injection Hrun as <-. simpl.
  rewrite Hd, Hprog, Hfile, Happ, Hext, Heq. simpl.
  repeat split; eauto. by rewrite <- Heq, Hpext.
Qed.

Lemma ProgramDirective_init_invariant_witness :
  is_Some (fs Sample_inputs.stata_world !! program Sample_inputs.stata_directive) /\
  Sample.extensions !! application Sample_inputs.stata_directive
  = Some (program_ext Sample_inputs.stata_directive).
Proof.
  destruct (ProgramDirective_init_invariant (E := Sample.env)
              "stata" "code/analysis.do" "" "" "" Sample.posix
              Sample_inputs.stata_world Sample_inputs.stata_world
              Sample_inputs.stata_directive)
    as (_ & _ & _ & Hfile & _ & Hext).
  - reflexivity.
  - split; [exact Hfile | exact Hext].
Defined.

(** ** More on construction of a Lyx directive *)

(** X16.  With the empty document type, a Lyx directive keeps the PDF
    directory it was passed, normalized, prints no warning and does not
    look for a temp directory in [metadata.settings]. *)
Theorem LyxDirective_plain {E : Env} (pdf app prog exe opt arg : string)
    (kw : kwargs) (w w' : World) (pd : ProgramDirective) :
  ProgramDirective_init app prog exe opt arg kw w = (Ok pd, w') ->
  LyxDirective_init "" pdf app prog exe opt arg kw w
  = (Ok {| program_directive := pd; doctype := ""; pdfout := norm_path pdf |}, w').
Proof.
  intros Hpd. unfold LyxDirective_init.
  erewrite bind_ok by exact Hpd. reflexivity.
Qed.

Lemma LyxDirective_plain_witness :
  exists pd,
    LyxDirective_init (E := More_inputs.posix_only) "" "out/pdfs"
      "lyx" "paper.lyx" "" "-e pdf2" "" Sample.posix Sample_inputs.lyx_world
    = (Ok {| program_directive := pd; doctype := ""; pdfout := "/work/out/pdfs" |},
       Sample_inputs.lyx_world) /\
    settings (Env := More_inputs.posix_only) !! "temp_dir" = None.
Proof.
  eexists. split; [|reflexivity].
  apply (LyxDirective_plain (E := More_inputs.posix_only) "out/pdfs"
           "lyx" "paper.lyx" "" "-e pdf2" "" Sample.posix Sample_inputs.lyx_world).
  vm_compute. reflexivity.
Defined.

(** X17.  With the document type [handout] or [comments], a Lyx directive
    needs the temp directory of [metadata.settings]: when the settings have
    none, construction raises [KeyError] on [temp_dir], after the program
    directive has been constructed. *)
Theorem LyxDirective_no_temp_dir {E : Env} (dtype pdf app prog exe opt arg : string)
    (kw : kwargs) (w w' : World) (pd : ProgramDirective) :
  dtype = "handout" \/ dtype = "comments" ->
  ProgramDirective_init app prog exe opt arg kw w = (Ok pd, w') ->
  settings !! "temp_dir" = None ->
  LyxDirective_init dtype pdf app prog exe opt arg kw w
  = (Raise (KeyError "temp_dir"), w').
Proof.
  intros Hdt Hpd Htemp. unfold LyxDirective_init.
  erewrite bind_ok by exact Hpd.
  erewrite bind_ok; cycle 1.
  { apply check_doctype_known. simpl. rewrite !elem_of_cons.
    destruct Hdt as [-> | ->]; auto. }
  apply bind_raise. unfold get_pdfout. simpl doctype.
  assert (Htruthy : truthy dtype = true) by (by destruct Hdt as [-> | ->]).
  rewrite Htruthy. apply bind_raise, bind_raise.
  unfold getitem. by rewrite Htemp.
Qed.

Lemma LyxDirective_no_temp_dir_witness :
  LyxDirective_init (E := More_inputs.posix_only) "comments" "out/pdfs"
    "lyx" "paper.lyx" "" "-e pdf2" "" Sample.posix Sample_inputs.lyx_world
  = (Raise (KeyError "temp_dir"), Sample_inputs.lyx_world).
Proof.
  eapply (LyxDirective_no_temp_dir (E := More_inputs.posix_only) "comments"
            "out/pdfs" "lyx" "paper.lyx" "" "-e pdf2" "" Sample.posix
            Sample_inputs.lyx_world Sample_inputs.lyx_world).
  - right. reflexivity.
  - vm_compute. reflexivity.
  - reflexivity.
Defined.

Lemma check_doctype_cases {E : Env} (self : LyxDirective) (w : World) :
  exists self' w',
    check_doctype self w = (Ok self', w') /\
    fs w' = fs w /\
    program_directive self' = program_directive self /\
    pdfout self' = pdfout self /\
    doctype self' ∈ ["handout"; "comments"; ""] /\
    (doctype self' = doctype self \/ doctype self' = "").
Proof.
  unfold check_doctype. case_bool_decide as Hin; simpl.
  - exists self, w. by repeat split; auto.
  - do 2 eexists. split; [reflexivity|]. simpl.
    repeat split; auto. rewrite !elem_of_cons. auto.
Qed.

(** X18.  However it was asked for, a Lyx directive that has been
    constructed has the document type [handout], [comments] or none, the
    one it was passed or none; with none, its PDF directory is the
    directory it was passed, with one, the temp directory of
    [metadata.settings], normalized either way.  Constructing it changes no
    file. *)
Theorem LyxDirective_init_invariant {E : Env} (dtype pdf app prog exe opt arg : string)
    (kw : kwargs) (w w' : World) (self : LyxDirective) :
  LyxDirective_init dtype pdf app prog exe opt arg kw w = (Ok self, w') ->
  doctype self ∈ ["handout"; "comments"; ""] /\
  (doctype self = dtype \/ doctype self = "") /\
  (doctype self = "" -> pdfout self = norm_path pdf) /\
  (doctype self <> "" ->
   exists temp_dir,
     settings !! "temp_dir" = Some temp_dir /\ pdfout self = norm_path temp_dir) /\
  fs w' = fs w.
Proof.
  intros Hrun. unfold LyxDirective_init in Hrun.
  unfold bind at 1 in Hrun.
  assert (Hro : reads_only (ProgramDirective_init app prog exe opt arg kw)).
  { unfold ProgramDirective_init. auto 10 with reads_only. }
  specialize (Hro w).
  destruct (ProgramDirective_init app prog exe opt arg kw w) as [[pd|e] w1];
    [|discriminate].
  simpl in Hro. subst w1.
  destruct (check_doctype_cases
              {| program_directive := pd; doctype := dtype; pdfout := pdf |} w)
    as (self1 & w1 & Hcheck & Hfs & _ & Hpdf & Hin & Hsame).
  unfold bind at 1 in Hrun. rewrite Hcheck in Hrun.
  simpl in Hpdf, Hsame.
  unfold bind at 1 in Hrun. unfold get_pdfout in Hrun.
  destruct (truthy (doctype self1)) eqn:Htruthy.
  - unfold bind at 1 2, getitem in Hrun.
    destruct (settings !! "temp_dir") as [t|] eqn:Htemp; [|discriminate].
    injection Hrun as <- <-. simpl.
    apply truthy_true in Htruthy. repeat split; eauto. congruence.
  - injection Hrun as <- <-. simpl.
    apply truthy_false in Htruthy. repeat split; eauto; congruence.
Qed.

Lemma LyxDirective_init_invariant_witness :
  exists self w',
    LyxDirective_init (E := Sample.env) "draft" "out/pdfs"
      "lyx" "paper.lyx" "" "" "" Sample.posix Sample_inputs.lyx_world
    = (Ok self, w') /\
    doctype self = "" /\
    pdfout self = "/work/out/pdfs" /\
    fs w' = fs Sample_inputs.lyx_world.
Proof.
  exists {| program_directive := Sample_inputs.lyx_program; doctype := "";
            pdfout := "/work/out/pdfs" |},
    (snd (print (fmt doctype_unrecognized "draft") Sample_inputs.lyx_world)).
  assert (Hrun : LyxDirective_init (E := Sample.env) "draft" "out/pdfs"
                   "lyx" "paper.lyx" "" "" "" Sample.posix Sample_inputs.lyx_world
                 = (Ok {| program_directive := Sample_inputs.lyx_program;
                          doctype := ""; pdfout := "/work/out/pdfs" |},
                    snd (print (fmt doctype_unrecognized "draft")
                           Sample_inputs.lyx_world))) by reflexivity.
  destruct (LyxDirective_init_invariant (E := Sample.env) _ _ _ _ _ _ _ _ _ _ _ Hrun)
    as (_ & _ & Hpdf & _ & Hfs).
  split; [exact Hrun|]. split; [reflexivity|].
  split; [apply Hpdf; reflexivity | exact Hfs].
Defined.

(** ** Relocating onto the makelog *)

(** X19.  When the destination log of [move_program_output] is the makelog
    and the program output is another file, the output is first appended to
    the makelog and then copied over it: the makelog ends up holding the
    program output alone, what it held before is gone, and the output file is
    deleted. *)
Theorem move_program_output_onto_makelog {E : Env} (self : ProgramDirective)
    (program_output : string) (w : World) (out : string) :
  let p := norm_path program_output in
  let mk := makelog (directive self) in
  fs w !! p = Some out ->
  mk <> "" ->
  makelog_started w = true ->
  is_Some (fs w !! mk) ->
  p <> mk ->
  exists w',
    move_program_output self program_output mk w = (Ok tt, w') /\
    fs w' !! mk = Some out /\
    fs w' !! p = None.
Proof.
  intros p mk Hout Hmk Hstarted Hfile Hne.
  exists (set_fs (relocated mk p mk out) w).
  split; [by apply move_program_output_run|].
  simpl. unfold relocated.
  apply truthy_true in Hmk. rewrite Hmk.
  apply String.eqb_neq in Hne. rewrite Hne.
  apply String.eqb_neq in Hne.
  unfold removed, copied.
  rewrite appended_lookup_ne, Hout by done.
  split; [|apply lookup_delete_eq].
  rewrite lookup_delete_ne by done. apply lookup_insert_eq.
Qed.

Lemma move_program_output_onto_makelog_witness :
  exists w',
    move_program_output (E := Sample.env) Sample_inputs.stata_directive
      "analysis.log" "/work/log/make.log" Sample_inputs.stata_world
    = (Ok tt, w') /\
    fs w' !! "/work/log/make.log" = Some (". display 1" +:+ newline +:+ "1") /\
    fs w' !! "/work/analysis.log" = None.
Proof.
  apply (move_program_output_onto_makelog (E := Sample.env)
           Sample_inputs.stata_directive "analysis.log" Sample_inputs.stata_world
           (". display 1" +:+ newline +:+ "1")).
  - reflexivity.
  - discriminate.
  - reflexivity.
  - eexists. reflexivity.
  - discriminate.
Defined.
